(** * RNN architecture overview: the notebook and its recorded outputs

    The repository consists of one Jupyter notebook,
    [rnns/1 RNN architecture overview.ipynb].  This development embeds the
    notebook as data (its cells, their source text and their recorded
    outputs, exactly as the JSON file has them), gives a lexer and a parser
    for the Python subset the code cells are written in, a symbolic
    semantics of the IPython kernel that runs the cells (first as the run in
    which nothing outside the notebook goes wrong, then with the packages
    outside left open), and a reader for the fixed-width tables recorded as
    cell outputs.  The properties of the
    notebook are then stated and proved over these definitions. *)

From Stdlib Require Import ZArith String Ascii List Bool Lia.
From Stdlib Require Import DecimalString.
From stdpp Require Import base gmap strings list.
Import ListNotations.
Open Scope string_scope.
Set Warnings "-register-all".

(** ** The notebook file *)

Module Notebook.

(** Characters the JSON file writes as escapes. *)
Definition nl : string := String (ascii_of_nat 10) EmptyString.
Definition cr : string := String (ascii_of_nat 13) EmptyString.
Definition tab : string := String (ascii_of_nat 9) EmptyString.
Definition esc : string := String (ascii_of_nat 27) EmptyString.
Definition dq : string := String (ascii_of_nat 34) EmptyString.

(** A line that ends in a newline, as all but the last line of a cell do. *)
Definition ln (s : string) : string := s +:+ nl.

Inductive cell_kind := markdown | code.

(** An entry of a cell's ["outputs"] array; the notebook only has streams. *)
Record output := {
  output_type : string;
  name : string;
  text : list string
}.

Record cell := {
  cell_type : cell_kind;
  execution_count : option Z;
  outputs : list output;
  source : list string
}.

(** Cell 0 (markdown). *)
Definition cell_0 : cell :=
  {| cell_type := markdown;
     execution_count := None;
     outputs := [];
     source :=
       [ ln "# Thinking in tensors in PyTorch";
         nl;
         ln "Hands-on training  by [Piotr Migdał](https://p.migdal.pl) (2019). ";
         nl;
         ln "Version for [AI & NLP Workshop Day](https://nlpday.pl/), 31 May 2019, Warsaw, Poland: **Understanding LSTM and GRU networks in PyTorch**.";
         nl;
         ln "> Long short-term memory (LSTM) and gated recurrent unit (GRU) network are popular network architectures for text processing. During this workshop (held in PyTorch) we will work with them in a low-level way, getting access to memory cells and intermediate states. Targeted at people using LSTMs/GRUs as black boxes OR have a background in other network architectures and would like to understand natural language processing with deep learning.";
         nl;
         nl;
         ln "## NLP & AI: 1. RNN architecture overview";
         nl;
         ln "[![Open In Colab](https://colab.research.google.com/assets/colab-badge.svg)](https://colab.research.google.com/github/stared/thinking-in-tensors-writing-in-pytorch/blob/master/extra/1%20RNN%20architecture%20overview.ipynb)";
         nl;
         ln "We use recurrent networks. For wonderful introductions:";
         nl;
         ln "* [Understanding LSTM Networks](http://colah.github.io/posts/2015-08-Understanding-LSTMs/) by Chris Olah";
         ("* [Exploring LSTMs](http://blog.echen.me/2017/05/30/exploring-lstms/) by Edwin Chen" +:+ tab +:+ nl);
         nl;
         ln "See also:";
         nl;
         ln "* [Simple diagrams of convoluted neural networks](https://medium.com/inbrowserai/simple-diagrams-of-convoluted-neural-networks-39c097d2925b) by Piotr Migdał";
         ln "* [The Unreasonable Effectiveness of Recurrent Neural Networks](http://karpathy.github.io/2015/05/21/rnn-effectiveness/) by Andrej Karpathy";
         ln "* [Repository to track the progress in Natural Language Processing](https://github.com/sebastianruder/NLP-progress) by Sebastian Ruder";
         ln "* [Memorization in RNNs](https://distill.pub/2019/memorization-in-rnns/)";
         nl;
         ln "And a few technical remarks:";
         nl;
         ln "* [Inconsistent dimension ordering for 1D networks - NCL vs NLC vs LNC](https://discuss.pytorch.org/t/inconsistent-dimension-ordering-for-1d-networks-ncl-vs-nlc-vs-lnc/14807)";
         ln "* [Contiguous() and permute()](https://discuss.pytorch.org/t/contiguous-and-permute/20673)";
         nl;
         ln "How to think about tensors:";
         nl;
         ln "* [Named tensors](http://nlp.seas.harvard.edu/NamedTensor) and [Named tensors (part 2)](http://nlp.seas.harvard.edu/NamedTensor2) by Alexander Rush ";
         ln "* [Matrices as Tensor Network Diagrams](https://www.math3ma.com/blog/matrices-as-tensor-network-diagrams) by Tai-Danae Bradley";
         "* There are Named Tensors with [PyTorch 1.3.0 release](https://github.com/pytorch/pytorch/releases/tag/v1.3.0)" ] |}.

(** Cell 1 (markdown). *)
Definition cell_1 : cell :=
  {| cell_type := markdown;
     execution_count := None;
     outputs := [];
     source :=
       [ ln "### Let's do a few examples in... Keras";
         nl;
         ln "* [Keras or PyTorch as your first deep learning framework](https://deepsense.ai/keras-or-pytorch/) by Rafał Jakubanis and Piotr Migdał";
         nl;
         ln "At least for the first approach, Keras may over an easier start:";
         nl;
         ln "* [Recurrent Layers - Keras](https://keras.io/layers/recurrent/)";
         ("* [François Chollet, " +:+ dq +:+ "Deep Learning with Python" +:+ dq +:+ "](https://www.manning.com/books/deep-learning-with-python), Chapter 6. Deep learning for text and sequences" +:+ nl);
         nl;
         ln "Here we use [keras-sequential-ascii](https://github.com/stared/keras-sequential-ascii) package.";
         nl ] |}.

(** Cell 2 (code). *)
Definition cell_2 : cell :=
  {| cell_type := code;
     execution_count := Some 1%Z;
     outputs :=
       [ {| output_type := "stream"; name := "stdout";
            text :=
              [ (esc +:+ "[33mYou are using pip version 19.0.3, however version 19.1.1 is available." +:+ cr +:+ nl);
                ("You should consider upgrading via the 'pip install --upgrade pip' command." +:+ esc +:+ "[0m" +:+ cr +:+ nl) ] |} ];
     source :=
       [ ln "# if you need to install that";
         "!pip install -q keras_sequential_ascii" ] |}.

(** Cell 3 (code). *)
Definition cell_3 : cell :=
  {| cell_type := code;
     execution_count := Some 2%Z;
     outputs :=
       [ {| output_type := "stream"; name := "stderr";
            text :=
              [ ln "Using TensorFlow backend." ] |} ];
     source :=
       [ ln "from keras.models import Sequential";
         ln "from keras.layers import Flatten, SimpleRNN, Dense, Dropout, LSTM, GRU, Bidirectional";
         nl;
         "from keras_sequential_ascii import sequential_model_to_ascii_printout" ] |}.

(** Cell 4 (markdown). *)
Definition cell_4 : cell :=
  {| cell_type := markdown;
     execution_count := None;
     outputs := [];
     source :=
       [ ln "## Simple Recurrent Neural Networks";
         nl;
         ln "![](https://colah.github.io/posts/2015-08-Understanding-LSTMs/img/LSTM3-SimpleRNN.png)";
         nl;
         "from [Understanding LSTM Networks](https://colah.github.io/posts/2015-08-Understanding-LSTMs/)" ] |}.

(** Cell 5 (code). *)
Definition cell_5 : cell :=
  {| cell_type := code;
     execution_count := Some 3%Z;
     outputs :=
       [ {| output_type := "stream"; name := "stdout";
            text :=
              [ ln "           OPERATION           DATA DIMENSIONS   WEIGHTS(N)   WEIGHTS(%)";
                nl;
                ln "               Input   #####     10   26";
                ln "           SimpleRNN   ????? -------------------      1888    92.0%";
                ln "                tanh   #####          32";
                ln "               Dense   XXXXX -------------------       165     8.0%";
                ln "             softmax   #####           5" ] |} ];
     source :=
       [ ln "model = Sequential([";
         ln "    SimpleRNN(32, return_sequences=False, input_shape=(10, 26)),";
         ln "    Dense(5, activation='softmax')";
         ln "])";
         nl;
         "sequential_model_to_ascii_printout(model)" ] |}.

(** Cell 6 (markdown). *)
Definition cell_6 : cell :=
  {| cell_type := markdown;
     execution_count := None;
     outputs := [];
     source :=
       [ ln "### Long short-term memory (LSTM)";
         nl;
         ln "![](https://colah.github.io/posts/2015-08-Understanding-LSTMs/img/LSTM3-chain.png)";
         nl;
         "from [Understanding LSTM Networks](https://colah.github.io/posts/2015-08-Understanding-LSTMs/)" ] |}.

(** Cell 7 (code). *)
Definition cell_7 : cell :=
  {| cell_type := code;
     execution_count := Some 4%Z;
     outputs :=
       [ {| output_type := "stream"; name := "stdout";
            text :=
              [ ln "           OPERATION           DATA DIMENSIONS   WEIGHTS(N)   WEIGHTS(%)";
                nl;
                ln "               Input   #####     10   26";
                ln "                LSTM   LLLLL -------------------      7552    97.9%";
                ln "                tanh   #####          32";
                ln "               Dense   XXXXX -------------------       165     2.1%";
                ln "             softmax   #####           5" ] |} ];
     source :=
       [ ln "model = Sequential([";
         ln "    LSTM(32, input_shape=(10, 26)),";
         ln "    Dense(5, activation='softmax')";
         ln "])";
         nl;
         "sequential_model_to_ascii_printout(model)" ] |}.

(** Cell 8 (code). *)
Definition cell_8 : cell :=
  {| cell_type := code;
     execution_count := Some 5%Z;
     outputs := [];
     source :=
       [ ln "model = Sequential([";
         ln "    Bidirectional(LSTM(32, input_shape=(10, 26), return_sequences=True)),";
         ln "    Bidirectional(LSTM(32)),";
         ln "    Dense(5, activation='softmax')";
         ln "])";
         nl;
         "# sequential_model_to_ascii_printout(model)" ] |}.

(** Cell 9 (code). *)
Definition cell_9 : cell :=
  {| cell_type := code;
     execution_count := Some 6%Z;
     outputs :=
       [ {| output_type := "stream"; name := "stdout";
            text :=
              [ ln "           OPERATION           DATA DIMENSIONS   WEIGHTS(N)   WEIGHTS(%)";
                nl;
                ln "               Input   #####     10   26";
                ln "                LSTM   LLLLL -------------------      7552    47.1%";
                ln "                tanh   #####     10   32";
                ln "                LSTM   LLLLL -------------------      8320    51.9%";
                ln "                tanh   #####          32";
                ln "               Dense   XXXXX -------------------       165     1.0%";
                ln "             softmax   #####           5" ] |} ];
     source :=
       [ ln "model = Sequential([";
         ln "    LSTM(32, input_shape=(10, 26), return_sequences=True),";
         ln "    LSTM(32),";
         ln "    Dense(5, activation='softmax')";
         ln "])";
         nl;
         "sequential_model_to_ascii_printout(model)" ] |}.

(** Cell 10 (markdown). *)
Definition cell_10 : cell :=
  {| cell_type := markdown;
     execution_count := None;
     outputs := [];
     source :=
       [ ln "### Gated Recurrent Unit (GRU)";
         nl;
         ln "To some extent- ";
         nl;
         ln "![](https://colah.github.io/posts/2015-08-Understanding-LSTMs/img/LSTM3-var-GRU.png)";
         nl;
         "from [Understanding LSTM Networks](https://colah.github.io/posts/2015-08-Understanding-LSTMs/)" ] |}.

(** Cell 11 (code). *)
Definition cell_11 : cell :=
  {| cell_type := code;
     execution_count := Some 7%Z;
     outputs :=
       [ {| output_type := "stream"; name := "stdout";
            text :=
              [ ln "           OPERATION           DATA DIMENSIONS   WEIGHTS(N)   WEIGHTS(%)";
                nl;
                ln "               Input   #####     10   26";
                ln "                 GRU   LLLLL -------------------      5664    46.9%";
                ln "                tanh   #####     10   32";
                ln "                 GRU   LLLLL -------------------      6240    51.7%";
                ln "                tanh   #####          32";
                ln "               Dense   XXXXX -------------------       165     1.4%";
                ln "             softmax   #####           5" ] |} ];
     source :=
       [ ln "# GRU is a drop-on replacement";
         ln "model = Sequential([";
         ln "    GRU(32, input_shape=(10, 26), return_sequences=True),";
         ln "    GRU(32),";
         ln "    Dense(5, activation='softmax')";
         ln "])";
         nl;
         "sequential_model_to_ascii_printout(model)" ] |}.

(** Cell 12 (markdown). *)
Definition cell_12 : cell :=
  {| cell_type := markdown;
     execution_count := None;
     outputs := [];
     source :=
       [ "If in Keras is is simpler, why bother?" ] |}.

(** The ["cells"] array of the notebook, in document order. *)
Definition cells : list cell :=
  [ cell_0; cell_1; cell_2; cell_3; cell_4; cell_5; cell_6; cell_7; cell_8;
    cell_9; cell_10; cell_11; cell_12 ].

(** The text of a cell: its lines joined, as Jupyter hands it to the kernel. *)
Definition cell_text (c : cell) : string :=
  fold_right String.append "" (source c).

(** The cells that carry code, each with its position in the document. *)
Definition indexed_cells : list (nat * cell) := combine (seq 0 (length cells)) cells.

Definition is_code (c : cell) : bool :=
  match cell_type c with code => true | markdown => false end.

Definition code_cells : list (nat * cell) :=
  filter (fun ic => is_code (snd ic)) indexed_cells.

End Notebook.

(** ** Lexer for the Python of the code cells

    A character-by-character state machine.  Newlines inside brackets do not
    end a logical line; a line whose first non-blank character is [!] is an
    IPython shell escape and is kept whole; [#] starts a comment that runs to
    the end of the line.  Reserved words are told apart from names, so that
    the absence of a construct ([def], [class], [try], ...) can be read off
    the token list. *)

Module Lexer.

Inductive token :=
| TName (x : string)
| TKeyword (k : string)
| TInt (n : Z)
| TStr (s : string)
| TOp (c : ascii)
| TNewline
| TComment (s : string)
| TShell (cmd : string)
| TBad (c : ascii).

(** The reserved words of Python 3 (the notebook's kernel is Python 3.5,
    where [async] and [await] are reserved in coroutines). *)
Definition keywords : list string :=
  [ "False"; "None"; "True"; "and"; "as"; "assert"; "async"; "await";
    "break"; "class"; "continue"; "def"; "del"; "elif"; "else"; "except";
    "finally"; "for"; "from"; "global"; "if"; "import"; "in"; "is";
    "lambda"; "nonlocal"; "not"; "or"; "pass"; "raise"; "return"; "try";
    "while"; "with"; "yield" ].

Definition is_keyword (s : string) : bool :=
  existsb (String.eqb s) keywords.

Definition code_of (c : ascii) : N := N_of_ascii c.

Definition is_digit (c : ascii) : bool :=
  ((48 <=? code_of c) && (code_of c <=? 57))%N.

Definition is_letter (c : ascii) : bool :=
  (((65 <=? code_of c) && (code_of c <=? 90))
   || ((97 <=? code_of c) && (code_of c <=? 122))
   || (code_of c =? 95))%N.

Definition is_name_char (c : ascii) : bool := is_letter c || is_digit c.

Definition is_newline (c : ascii) : bool := (code_of c =? 10)%N.

Definition is_blank (c : ascii) : bool :=
  ((code_of c =? 32) || (code_of c =? 9) || (code_of c =? 13))%N.

Definition is_quote (c : ascii) : bool :=
  ((code_of c =? 39) || (code_of c =? 34))%N.

Definition is_open (c : ascii) : bool :=
  ((code_of c =? 40) || (code_of c =? 91) || (code_of c =? 123))%N.

Definition is_close (c : ascii) : bool :=
  ((code_of c =? 41) || (code_of c =? 93) || (code_of c =? 125))%N.

Definition is_punct (c : ascii) : bool :=
  existsb (Ascii.eqb c) (list_ascii_of_string "=,.:;+-*/%<>&|^~@").

Definition digit_value (c : ascii) : Z := Z.of_N (code_of c) - 48.

Definition string_of_rev (acc : list ascii) : string :=
  string_of_list_ascii (rev acc).

(** What the machine is in the middle of. *)
Inductive lex_state :=
| LStart
| LName (acc : list ascii)
| LInt (n : Z)
| LStr (quote : ascii) (acc : list ascii)
| LComment (acc : list ascii)
| LShell (acc : list ascii).

Record lexer := {
  state : lex_state;
  depth : nat;          (* open brackets *)
  bol : bool;           (* only blanks so far on this line *)
  toks : list token     (* tokens so far, last first *)
}.

Definition initial : lexer :=
  {| state := LStart; depth := 0; bol := true; toks := [] |}.

Definition emit (t : token) (L : lexer) : lexer :=
  {| state := LStart; depth := depth L; bol := bol L; toks := t :: toks L |}.

Definition goto (s : lex_state) (L : lexer) : lexer :=
  {| state := s; depth := depth L; bol := false; toks := toks L |}.

Definition word_token (acc : list ascii) : token :=
  let w := string_of_rev acc in
  if is_keyword w then TKeyword w else TName w.

(** Close the token the machine is in the middle of. *)
Definition flush (L : lexer) : lexer :=
  match state L with
  | LStart => L
  | LName acc => emit (word_token acc) L
  | LInt n => emit (TInt n) L
  | LStr q acc => emit (TBad q) L
  | LComment acc => emit (TComment (string_of_rev acc)) L
  | LShell acc => emit (TShell (string_of_rev acc)) L
  end.

(** A character met between tokens. *)
Definition start_char (c : ascii) (L : lexer) : lexer :=
  if is_newline c then
    match depth L with
    | 0 => {| state := LStart; depth := 0; bol := true;
              toks := TNewline :: toks L |}
    | S _ => L
    end
  else if is_blank c then L
  else if (code_of c =? 35)%N then goto (LComment []) L
  else if (code_of c =? 33)%N && bol L && Nat.eqb (depth L) 0
       then goto (LShell []) L
  else if is_letter c then goto (LName [c]) L
  else if is_digit c then goto (LInt (digit_value c)) L
  else if is_quote c then goto (LStr c []) L
  else if is_open c then
    {| state := LStart; depth := S (depth L); bol := false;
       toks := TOp c :: toks L |}
  else if is_close c then
    {| state := LStart; depth := pred (depth L); bol := false;
       toks := TOp c :: toks L |}
  else if is_punct c then goto LStart (emit (TOp c) L)
  else goto LStart (emit (TBad c) L).

Definition lex_step (L : lexer) (c : ascii) : lexer :=
  match state L with
  | LStart => start_char c L
  | LName acc =>
      if is_name_char c then goto (LName (c :: acc)) L
      else start_char c (flush L)
  | LInt n =>
      if is_digit c then goto (LInt (10 * n + digit_value c)) L
      else start_char c (flush L)
  | LStr q acc =>
      if Ascii.eqb c q then emit (TStr (string_of_rev acc)) L
      else if is_newline c || (code_of c =? 92)%N then
        start_char c (emit (TBad c) L)
      else goto (LStr q (c :: acc)) L
  | LComment acc =>
      if is_newline c then start_char c (flush L)
      else goto (LComment (c :: acc)) L
  | LShell acc =>
      if is_newline c then start_char c (flush L)
      else goto (LShell (c :: acc)) L
  end.

Definition lex (s : string) : list token :=
  rev (toks (flush (fold_left lex_step (list_ascii_of_string s) initial))).

(** The reserved words a token list uses. *)
Definition keywords_of (ts : list token) : list string :=
  flat_map (fun t => match t with TKeyword k => [k] | _ => [] end) ts.

Definition names_of (ts : list token) : list string :=
  flat_map (fun t => match t with TName x => [x] | _ => [] end) ts.

Definition is_bad (t : token) : bool :=
  match t with TBad _ => true | _ => false end.

End Lexer.

(** ** Syntax and parser

    The statements and expressions of the Python subset.  A statement led by
    a reserved word other than [from] and [import] ([def], [class], [try],
    [raise], [with], [for], ...) is kept as [SKeyword] with its tokens: the
    parser does not look inside it, but it is never mistaken for an
    expression or an assignment. *)

Module Syntax.

Inductive expr :=
| EName (x : string)
| EInt (n : Z)
| EStr (s : string)
| EBool (b : bool)
| ENone
| ETuple (es : list expr)
| EList (es : list expr)
| EAttr (e : expr) (a : string)
| ECall (f : expr) (args : list expr) (kwargs : list (string * expr)).

Inductive stmt :=
| SShell (cmd : string)
| SComment (s : string)
| SImportFrom (module : string) (names : list string)
| SImport (module : string)
| SAssign (x : string) (e : expr)
| SExpr (e : expr)
| SKeyword (k : string) (rest : list Lexer.token).

End Syntax.

Module Parser.
Import Lexer Syntax.

Open Scope char_scope.

(** Expressions, by recursive descent.  Every call consumes fuel; the number
    of tokens plus one is always enough, and running out is a failure. *)
Fixpoint parse_expr (fuel : nat) (ts : list token) {struct fuel}
  : option (expr * list token) :=
  match fuel with
  | O => None
  | S f =>
      match ts with
      | TName x :: r => parse_trailers f (EName x) r
      | TInt n :: r => parse_trailers f (EInt n) r
      | TStr s :: r => parse_trailers f (EStr s) r
      | TKeyword k :: r =>
          if String.eqb k "True" then parse_trailers f (EBool true) r
          else if String.eqb k "False" then parse_trailers f (EBool false) r
          else if String.eqb k "None" then parse_trailers f ENone r
          else None
      | TOp "(" :: r =>
          match parse_items f ")" r with
          | Some (es, comma, r') =>
              match es, comma with
              | [e], false => parse_trailers f e r'
              | _, _ => parse_trailers f (ETuple es) r'
              end
          | None => None
          end
      | TOp "[" :: r =>
          match parse_items f "]" r with
          | Some (es, _, r') => parse_trailers f (EList es) r'
          | None => None
          end
      | _ => None
      end
  end

(** What may follow an atom: a call or an attribute access. *)
with parse_trailers (fuel : nat) (e : expr) (ts : list token) {struct fuel}
  : option (expr * list token) :=
  match fuel with
  | O => None
  | S f =>
      match ts with
      | TOp "(" :: r =>
          match parse_args f r with
          | Some (args, kwargs, r') => parse_trailers f (ECall e args kwargs) r'
          | None => None
          end
      | TOp "." :: TName a :: r => parse_trailers f (EAttr e a) r
      | _ => Some (e, ts)
      end
  end

(** Comma-separated expressions up to the closing bracket; the flag tells
    whether a comma was seen (so that [(e)] and [(e,)] differ). *)
with parse_items (fuel : nat) (close : ascii) (ts : list token) {struct fuel}
  : option (list expr * bool * list token) :=
  match fuel with
  | O => None
  | S f =>
      match ts with
      | TOp c :: r =>
          if Ascii.eqb c close then Some ([], false, r)
          else parse_items_cons f close ts
      | _ => parse_items_cons f close ts
      end
  end

with parse_items_cons (fuel : nat) (close : ascii) (ts : list token)
  {struct fuel} : option (list expr * bool * list token) :=
  match fuel with
  | O => None
  | S f =>
      match parse_expr f ts with
      | Some (e, TOp c :: r) =>
          if Ascii.eqb c close then Some ([e], false, r)
          else if Ascii.eqb c "," then
            match parse_items f close r with
            | Some (es, _, r') => Some (e :: es, true, r')
            | None => None
            end
          else None
      | _ => None
      end
  end

(** The arguments of a call: positional ones and [name=value] ones. *)
with parse_args (fuel : nat) (ts : list token) {struct fuel}
  : option (list expr * list (string * expr) * list token) :=
  match fuel with
  | O => None
  | S f =>
      match ts with
      | TOp ")" :: r => Some ([], [], r)
      | TName k :: TOp "=" :: r =>
          match parse_expr f r with
          | Some (e, TOp ")" :: r') => Some ([], [(k, e)], r')
          | Some (e, TOp "," :: r') =>
              match parse_args f r' with
              | Some (args, kwargs, r'') => Some (args, (k, e) :: kwargs, r'')
              | None => None
              end
          | _ => None
          end
      | _ =>
          match parse_expr f ts with
          | Some (e, TOp ")" :: r') => Some ([e], [], r')
          | Some (e, TOp "," :: r') =>
              match parse_args f r' with
              | Some (args, kwargs, r'') => Some (e :: args, kwargs, r'')
              | None => None
              end
          | _ => None
          end
      end
  end.

Close Scope char_scope.

(** A whole token list as one expression. *)
Definition parse_whole_expr (ts : list token) : option expr :=
  match parse_expr (S (length ts)) ts with
  | Some (e, []) => Some e
  | _ => None
  end.

(** [a.b.c] after [from] or [import]. *)
Fixpoint parse_dotted (ts : list token) : option (string * list token) :=
  match ts with
  | TName x :: TOp c :: r =>
      if Ascii.eqb c "."%char then
        match parse_dotted r with
        | Some (m, r') => Some (x +:+ "." +:+ m, r')
        | None => None
        end
      else Some (x, TOp c :: r)
  | TName x :: r => Some (x, r)
  | _ => None
  end.

(** [a, b, c] after [import]. *)
Fixpoint parse_names (ts : list token) : option (list string) :=
  match ts with
  | [TName x] => Some [x]
  | TName x :: TOp c :: r =>
      if Ascii.eqb c ","%char then
        match parse_names r with
        | Some xs => Some (x :: xs)
        | None => None
        end
      else None
  | _ => None
  end.

Definition is_comment (t : token) : bool :=
  match t with TComment _ => true | _ => false end.

(** One logical line, comments removed, as a statement. *)
Definition parse_stmt (ts : list token) : option stmt :=
  match ts with
  | [TShell cmd] => Some (SShell cmd)
  | TKeyword k :: r =>
      if String.eqb k "from" then
        match parse_dotted r with
        | Some (m, TKeyword k' :: r') =>
            if String.eqb k' "import" then
              match parse_names r' with
              | Some xs => Some (SImportFrom m xs)
              | None => None
              end
            else None
        | _ => None
        end
      else if String.eqb k "import" then
        match parse_dotted r with
        | Some (m, []) => Some (SImport m)
        | _ => None
        end
      else if existsb (String.eqb k) ["True"; "False"; "None"] then
        option_map SExpr (parse_whole_expr ts)
      else Some (SKeyword k r)
  | TName x :: TOp c :: r =>
      if Ascii.eqb c "="%char then option_map (SAssign x) (parse_whole_expr r)
      else option_map SExpr (parse_whole_expr ts)
  | _ => option_map SExpr (parse_whole_expr ts)
  end.

(** The logical lines of a token list. *)
Fixpoint split_lines (cur : list token) (ts : list token) : list (list token) :=
  match ts with
  | [] => [rev cur]
  | TNewline :: r => rev cur :: split_lines [] r
  | t :: r => split_lines (t :: cur) r
  end.

(** The statements of one logical line: nothing for a blank line, the comment
    for a line that is only a comment, else the statement of its code. *)
Definition parse_line (ts : list token) : option (list stmt) :=
  match filter (fun t => negb (is_comment t)) ts with
  | [] => Some (flat_map (fun t => match t with
                                   | TComment s => [SComment s]
                                   | _ => []
                                   end) ts)
  | code => option_map (fun s => [s]) (parse_stmt code)
  end.

Fixpoint parse_lines (ls : list (list token)) : option (list stmt) :=
  match ls with
  | [] => Some []
  | l :: r =>
      match parse_line l, parse_lines r with
      | Some a, Some b => Some (a ++ b)%list
      | _, _ => None
      end
  end.

(** The statements of a cell's text; [None] is a syntax error. *)
Definition parse (s : string) : option (list stmt) :=
  parse_lines (split_lines [] (lex s)).

End Parser.

(** ** The kernel

    A symbolic semantics of the IPython kernel that runs the code cells.
    Objects of the external packages are not computed: a name imported from a
    package is an opaque external object, and a call of an external class
    yields a fresh object that records the class and the arguments it was
    built from.  Every call, import, binding and shell escape is logged with
    the index of the cell that performed it.  A shell escape (a line that
    starts with [!]) is not Python: IPython runs its command line in a child
    process and waits for it to end.  Besides the kernel's namespace the
    state has the set of packages installed in the Python environment, which
    is what [pip install] changes and what outlives the kernel.  Statements
    run one after the other, each to its end before the next.

    This is the run in which nothing outside the notebook goes wrong: an
    import succeeds when its package is installed, a call of an imported
    object returns, and [pip install] installs the packages it is told to.
    What the packages do besides (what an import needs or starts, what a
    call raises, what [pip] installs on top) is not in the notebook; the
    module [Failing] below leaves it open.  The namespace holds the names
    that the statements of the notebook bind; IPython's own variables are
    left out. *)

Module Kernel.
Import Notebook Lexer Syntax Parser.

Inductive value :=
| VExt (module x : string)
| VInt (n : Z)
| VStr (s : string)
| VBool (b : bool)
| VNone
| VTuple (vs : list value)
| VList (vs : list value)
| VObj (id : nat) (class : value) (args : list value)
       (kwargs : list (string * value)).

Inductive event :=
| EvShell (cmd : string)
| EvImport (module x : string)
| EvCall (callee : value) (args : list value)
         (kwargs : list (string * value)) (result : value)
| EvBind (x : string) (v : value).

Inductive error :=
| SyntaxError
| NameError (x : string)
| ImportError (module : string)
| TypeError
| Unsupported (what : string).

Inductive result (A : Type) :=
| Ok (a : A)
| Err (e : error).
Arguments Ok {A} a.
Arguments Err {A} e.

(** The printing utility, once imported. *)
Definition printer : value :=
  VExt "keras_sequential_ascii" "sequential_model_to_ascii_printout".

Definition value_is_printer (v : value) : bool :=
  match v with
  | VExt m x => String.eqb m "keras_sequential_ascii"
                && String.eqb x "sequential_model_to_ascii_printout"
  | _ => false
  end.

(** *** Evaluation of expressions

    A computation threads the next free object identity and the log of
    calls, and may fail. *)
Record heap := { next_id : nat; calls : list event }.

Definition M (A : Type) : Type := heap -> result (A * heap).

#[local] Instance M_ret : MRet M := fun A a h => Ok (a, h).
#[local] Instance M_bind : MBind M := fun A B f c h =>
  match c h with
  | Ok (a, h') => f a h'
  | Err e => Err e
  end.

Definition fail {A} (e : error) : M A := fun _ => Err e.

(** Calling a value.  The printer returns [None]; any other external object
    is a class of the framework, and calling it constructs an object. *)
Definition call (c : value) (args : list value)
  (kwargs : list (string * value)) : M value :=
  match c with
  | VExt _ _ => fun h =>
      let r := if value_is_printer c then VNone
               else VObj (next_id h) c args kwargs in
      Ok (r, {| next_id := if value_is_printer c then next_id h
                           else S (next_id h);
                calls := EvCall c args kwargs r :: calls h |})
  | _ => fail TypeError
  end.

Fixpoint eval (ns : gmap string value) (e : expr) {struct e} : M value :=
  match e with
  | EName x =>
      match ns !! x with
      | Some v => mret v
      | None => fail (NameError x)
      end
  | EInt n => mret (VInt n)
  | EStr s => mret (VStr s)
  | EBool b => mret (VBool b)
  | ENone => mret VNone
  | ETuple es =>
      vs ← (fix go (es : list expr) : M (list value) :=
              match es with
              | [] => mret []
              | e :: r => v ← eval ns e; vs ← go r; mret (v :: vs)
              end) es;
      mret (VTuple vs)
  | EList es =>
      vs ← (fix go (es : list expr) : M (list value) :=
              match es with
              | [] => mret []
              | e :: r => v ← eval ns e; vs ← go r; mret (v :: vs)
              end) es;
      mret (VList vs)
  | EAttr _ _ => fail (Unsupported "attribute")
  | ECall f args kwargs =>
      c ← eval ns f;
      vs ← (fix go (es : list expr) : M (list value) :=
              match es with
              | [] => mret []
              | e :: r => v ← eval ns e; vs ← go r; mret (v :: vs)
              end) args;
      kvs ← (fix go (kes : list (string * expr)) : M (list (string * value)) :=
               match kes with
               | [] => mret []
               | (k, e) :: r => v ← eval ns e; kvs ← go r; mret ((k, v) :: kvs)
               end) kwargs;
      call c vs kvs
  end.

(** *** Execution of statements *)

Record world := {
  installed : gset string;          (* packages of the Python environment *)
  ns : gmap string value;           (* the kernel's variables *)
  fresh : nat;                      (* next object identity *)
  trace : list (nat * event)        (* what happened, last first *)
}.

Definition start (env : gset string) : world :=
  {| installed := env; ns := ∅; fresh := 0; trace := [] |}.

(** The words of a shell command line. *)
Fixpoint split_on (sep : ascii) (cur : list ascii) (cs : list ascii)
  : list string :=
  match cs with
  | [] => [string_of_rev cur]
  | c :: r =>
      if Ascii.eqb c sep then string_of_rev cur :: split_on sep [] r
      else split_on sep (c :: cur) r
  end.

Definition shell_words (cmd : string) : list string :=
  filter (fun w => negb (String.eqb w ""))
         (split_on " "%char [] (list_ascii_of_string cmd)).

Definition is_option (w : string) : bool :=
  match w with
  | String c _ => Ascii.eqb c "-"%char
  | EmptyString => false
  end.

(** The package a module belongs to: the first component of its name. *)
Definition package_of (module : string) : string :=
  match split_on "."%char [] (list_ascii_of_string module) with
  | p :: _ => p
  | [] => module
  end.

(** The packages a [pip install] command line names: its words that are
    not options.  Any other command line is not understood. *)
Definition pip_install (ws : list string) : option (list string) :=
  match ws with
  | prog :: verb :: rest =>
      if String.eqb prog "pip" && String.eqb verb "install"
      then Some (filter (fun x => negb (is_option x)) rest)
      else None
  | _ => None
  end.

Definition tagged (i : nat) (evs : list event) : list (nat * event) :=
  map (fun ev => (i, ev)) evs.

(** One statement of cell [i].  The only shell command given a meaning is
    [pip install], which adds the named packages to the environment. *)
Definition exec_stmt (i : nat) (w : world) (s : stmt) : result world :=
  match s with
  | SShell cmd =>
      match pip_install (shell_words cmd) with
      | Some packages =>
          Ok {| installed := installed w ∪ list_to_set packages;
                ns := ns w; fresh := fresh w;
                trace := (i, EvShell cmd) :: trace w |}
      | None => Err (Unsupported "shell")
      end
  | SComment _ => Ok w
  | SImportFrom m xs =>
      if bool_decide (package_of m ∈ installed w) then
        Ok {| installed := installed w;
              ns := fold_left (fun n x => <[x := VExt m x]> n) xs (ns w);
              fresh := fresh w;
              trace := (rev (tagged i (map (EvImport m) xs)) ++ trace w)%list |}
      else Err (ImportError m)
  | SImport m => Err (Unsupported "import")
  | SAssign x e =>
      match eval (ns w) e {| next_id := fresh w; calls := [] |} with
      | Ok (v, h) =>
          Ok {| installed := installed w;
                ns := <[x := v]> (ns w);
                fresh := next_id h;
                trace := ((i, EvBind x v) :: tagged i (calls h)
                          ++ trace w)%list |}
      | Err e => Err e
      end
  | SExpr e =>
      match eval (ns w) e {| next_id := fresh w; calls := [] |} with
      | Ok (_, h) =>
          Ok {| installed := installed w; ns := ns w; fresh := next_id h;
                trace := (tagged i (calls h) ++ trace w)%list |}
      | Err e => Err e
      end
  | SKeyword k _ => Err (Unsupported k)
  end.

Fixpoint exec_stmts (i : nat) (w : world) (ss : list stmt) : result world :=
  match ss with
  | [] => Ok w
  | s :: r =>
      match exec_stmt i w s with
      | Ok w' => exec_stmts i w' r
      | Err e => Err e
      end
  end.

(** One cell: markdown cells are not run. *)
Definition run_cell (w : world) (ic : nat * cell) : result world :=
  match cell_type (snd ic) with
  | markdown => Ok w
  | code =>
      match parse (cell_text (snd ic)) with
      | Some ss => exec_stmts (fst ic) w ss
      | None => Err SyntaxError
      end
  end.

Fixpoint run_cells (w : world) (cs : list (nat * cell)) : result world :=
  match cs with
  | [] => Ok w
  | c :: r =>
      match run_cell w c with
      | Ok w' => run_cells w' r
      | Err e => Err e
      end
  end.

(** The whole notebook, top to bottom, in a Python environment [env]. *)
Abbreviation run env := (run_cells (start env) indexed_cells).

(** The events of a run, first to last. *)
Definition events (w : world) : list (nat * event) := rev (trace w).

End Kernel.

(** ** The recorded tables

    A reader for the fixed-width text the printer left in the cells'
    outputs: a header line, an empty line, then rows that alternate between
    the data flowing through the model (a name, a glyph, the dimensions) and
    the layers that carry weights (a name, a glyph, a rule of dashes, the
    number of weights and its share in percent). *)

Module Table.
Import Notebook Lexer.

Definition is_space (c : ascii) : bool := is_blank c || is_newline c.

(** The blank-separated words of a line. *)
Fixpoint words_from (cur : list ascii) (cs : list ascii) : list string :=
  match cs with
  | [] => match cur with [] => [] | _ => [string_of_rev cur] end
  | c :: r =>
      if is_space c then
        match cur with
        | [] => words_from [] r
        | _ => string_of_rev cur :: words_from [] r
        end
      else words_from (c :: cur) r
  end.

Definition words (s : string) : list string :=
  words_from [] (list_ascii_of_string s).

(** The columns of a heading: runs of text that two or more blanks (or the
    end of the line) separate, so that a single blank stays inside a
    column title. *)
Fixpoint columns_from (cur : list ascii) (gap : nat) (cs : list ascii)
  : list string :=
  match cs with
  | [] => match cur with [] => [] | _ => [string_of_rev cur] end
  | c :: r =>
      if is_space c then columns_from cur (S gap) r
      else
        match cur, gap with
        | [], _ => columns_from [c] 0 r
        | _, 0 => columns_from (c :: cur) 0 r
        | _, 1 => columns_from (c :: " "%char :: cur) 0 r
        | _, _ => string_of_rev cur :: columns_from [c] 0 r
        end
  end.

Definition columns (s : string) : list string :=
  columns_from [] 0 (list_ascii_of_string s).

(** A decimal numeral. *)
Fixpoint digits (acc : Z) (cs : list ascii) : option Z :=
  match cs with
  | [] => Some acc
  | c :: r => if is_digit c then digits (10 * acc + digit_value c)%Z r else None
  end.

Definition number (s : string) : option Z :=
  match list_ascii_of_string s with
  | [] => None
  | cs => digits 0 cs
  end.

(** A share such as [92.0%], in tenths of a percent. *)
Definition share (s : string) : option Z :=
  match rev (list_ascii_of_string s) with
  | pc :: d :: dot :: r =>
      if Ascii.eqb pc "%"%char && Ascii.eqb dot "."%char && is_digit d then
        match r with
        | [] => None
        | _ => option_map (fun n => 10 * n + digit_value d)%Z (digits 0 (rev r))
        end
      else None
  | _ => None
  end.

Fixpoint numbers (ws : list string) : option (list Z) :=
  match ws with
  | [] => Some []
  | w :: r =>
      match number w, numbers r with
      | Some n, Some ns => Some (n :: ns)
      | _, _ => None
      end
  end.

Definition is_rule (s : string) : bool :=
  match list_ascii_of_string s with
  | [] => false
  | cs => forallb (Ascii.eqb "-"%char) cs
  end.

Inductive row :=
| RData (operation glyph : string) (dims : list Z)
| RWeights (operation glyph : string) (weights share_tenths : Z).

Definition operation_of (r : row) : string :=
  match r with RData o _ _ => o | RWeights o _ _ _ => o end.

Definition read_row (line : string) : option row :=
  match words line with
  | [o; g; rule; n; p] =>
      if is_rule rule then
        match number n, share p with
        | Some n', Some p' => Some (RWeights o g n' p')
        | _, _ => None
        end
      else option_map (RData o g) (numbers [rule; n; p])
  | o :: g :: ds => option_map (RData o g) (numbers ds)
  | _ => None
  end.

Fixpoint read_rows (lines : list string) : option (list row) :=
  match lines with
  | [] => Some []
  | l :: r =>
      match read_row l, read_rows r with
      | Some x, Some xs => Some (x :: xs)
      | _, _ => None
      end
  end.

Record table := { header : list string; rows : list row }.

Definition read_table (lines : list string) : option table :=
  match lines with
  | h :: blank :: body =>
      match words blank, read_rows body with
      | [], Some rs => Some {| header := columns h; rows := rs |}
      | _, _ => None
      end
  | _ => None
  end.

(** The table a cell printed: the cell's only output must be a stream on
    standard output that reads as a table. *)
Definition printed_table (c : cell) : option table :=
  match outputs c with
  | [o] =>
      if String.eqb (output_type o) "stream" && String.eqb (name o) "stdout"
      then read_table (text o) else None
  | _ => None
  end.

Definition weights_of (t : table) : list Z :=
  flat_map (fun r => match r with RWeights _ _ n _ => [n] | _ => [] end)
           (rows t).

Definition shares_of (t : table) : list Z :=
  flat_map (fun r => match r with RWeights _ _ _ p => [p] | _ => [] end)
           (rows t).

Definition dims_of (t : table) : list (list Z) :=
  flat_map (fun r => match r with RData _ _ ds => [ds] | _ => [] end)
           (rows t).

Definition operations_of (t : table) : list string :=
  map operation_of (rows t).

Definition total_weights (t : table) : Z := fold_right Z.add 0%Z (weights_of t).

(** A share is right when it is the percentage rounded to one decimal:
    it differs from [1000 * n / total] by at most one half. *)
Definition share_ok (total n p : Z) : bool :=
  (2 * Z.abs (1000 * n - p * total) <=? total)%Z.

Definition shares_ok (t : table) : bool :=
  forallb (fun r => match r with
                    | RWeights _ _ n p => share_ok (total_weights t) n p
                    | RData _ _ _ => true
                    end) (rows t).

End Table.

(** ** Layer descriptors

    What the notebook tells the framework about a layer, read back from the
    object a constructor call produced: the kind of layer, the number of
    units, the input shape, whether the whole sequence is returned, and
    whether the layer is wrapped to run in both directions; for a dense
    layer, its activation.  A call with any other argument does not decode. *)

Module Layers.
Import Kernel.

Inductive rnn_kind := SimpleRNN | LSTM | GRU.

Record recurrent := {
  kind : rnn_kind;
  units : Z;
  input_shape : option (list Z);
  return_sequences : option bool
}.

Inductive layer :=
| Recurrent (r : recurrent)
| Bidirectional (r : recurrent)
| Dense (n : Z) (activation : option string).

Definition rnn_kind_of (x : string) : option rnn_kind :=
  if String.eqb x "SimpleRNN" then Some SimpleRNN
  else if String.eqb x "LSTM" then Some LSTM
  else if String.eqb x "GRU" then Some GRU
  else None.

Definition kind_name (k : rnn_kind) : string :=
  match k with SimpleRNN => "SimpleRNN" | LSTM => "LSTM" | GRU => "GRU" end.

Fixpoint ints (vs : list value) : option (list Z) :=
  match vs with
  | [] => Some []
  | VInt n :: r => option_map (cons n) (ints r)
  | _ => None
  end.

(** The keyword arguments of a recurrent layer, one at a time; a keyword
    given twice or an unknown keyword is refused. *)
Fixpoint recurrent_kwargs (r : recurrent) (kvs : list (string * value))
  : option recurrent :=
  match kvs with
  | [] => Some r
  | (k, v) :: rest =>
      if String.eqb k "input_shape" then
        match input_shape r, v with
        | None, VTuple ds =>
            match ints ds with
            | Some shape =>
                recurrent_kwargs
                  {| kind := kind r; units := units r;
                     input_shape := Some shape;
                     return_sequences := return_sequences r |} rest
            | None => None
            end
        | _, _ => None
        end
      else if String.eqb k "return_sequences" then
        match return_sequences r, v with
        | None, VBool b =>
            recurrent_kwargs
              {| kind := kind r; units := units r;
                 input_shape := input_shape r;
                 return_sequences := Some b |} rest
        | _, _ => None
        end
      else None
  end.

Definition recurrent_of_value (v : value) : option recurrent :=
  match v with
  | VObj _ (VExt m x) [VInt u] kvs =>
      if String.eqb m "keras.layers" then
        match rnn_kind_of x with
        | Some k =>
            recurrent_kwargs
              {| kind := k; units := u; input_shape := None;
                 return_sequences := None |} kvs
        | None => None
        end
      else None
  | _ => None
  end.

Definition layer_of_value (v : value) : option layer :=
  match v with
  | VObj _ (VExt m x) args kvs =>
      if String.eqb m "keras.layers" then
        if String.eqb x "Dense" then
          match args, kvs with
          | [VInt n], [] => Some (Dense n None)
          | [VInt n], [(k, VStr a)] =>
              if String.eqb k "activation" then Some (Dense n (Some a))
              else None
          | _, _ => None
          end
        else if String.eqb x "Bidirectional" then
          match args, kvs with
          | [inner], [] => option_map Bidirectional (recurrent_of_value inner)
          | _, _ => None
          end
        else option_map Recurrent (recurrent_of_value v)
      else None
  | _ => None
  end.

Fixpoint layers_of_values (vs : list value) : option (list layer) :=
  match vs with
  | [] => Some []
  | v :: r =>
      match layer_of_value v, layers_of_values r with
      | Some l, Some ls => Some (l :: ls)
      | _, _ => None
      end
  end.

(** The layers of a model: a [Sequential] built from one list of layers. *)
Definition model_layers (m : value) : option (list layer) :=
  match m with
  | VObj _ (VExt mo x) [VList vs] [] =>
      if String.eqb mo "keras.models" && String.eqb x "Sequential"
      then layers_of_values vs else None
  | _ => None
  end.

Definition is_model (m : value) : bool :=
  match m with
  | VObj _ (VExt mo x) _ _ =>
      String.eqb mo "keras.models" && String.eqb x "Sequential"
  | _ => false
  end.

Definition is_layer_object (v : value) : bool :=
  match v with
  | VObj _ (VExt m _) _ _ => String.eqb m "keras.layers"
  | _ => false
  end.

Definition layer_name (l : layer) : string :=
  match l with
  | Recurrent r => kind_name (kind r)
  | Bidirectional _ => "Bidirectional"
  | Dense _ _ => "Dense"
  end.

Definition is_recurrent (l : layer) : bool :=
  match l with Recurrent _ | Bidirectional _ => true | Dense _ _ => false end.

Definition is_dense_with_activation (l : layer) : bool :=
  match l with Dense _ (Some _) => true | _ => false end.

Definition recurrent_part (l : layer) : option recurrent :=
  match l with Recurrent r | Bidirectional r => Some r | Dense _ _ => None end.

(** The input shape a stack declares: the one its first layer was given. *)
Definition declared_input (ls : list layer) : option (list Z) :=
  match ls with
  | l :: _ =>
      match recurrent_part l with
      | Some r => input_shape r
      | None => None
      end
  | [] => None
  end.

(** A stack of the shape input, recurrent layers, dense layer, activation:
    the first layer declares the input, one or more recurrent layers come
    first, and a dense layer with an activation ends the stack. *)
Definition well_shaped (ls : list layer) : bool :=
  match rev ls with
  | last :: before =>
      is_dense_with_activation last
      && negb (Nat.eqb (length before) 0)
      && forallb is_recurrent before
      && match declared_input ls with Some _ => true | None => false end
  | [] => false
  end.

End Layers.

(** ** What the framework reports for a stack

    The framework is not part of the notebook; what it reports is recorded
    in the cells' outputs.  These are the standard formulas, as the
    specification states them, that the recorded tables are compared with:
    the shape of the data after each layer and the number of weights of each
    layer, written as the integer arithmetic they are: a recurrent layer
    with [u] units on [d] input features has one kernel of [d * u], one recurrent kernel of [u * u] and one bias of [u]
    per gate, that is [gates * u * (d + u + 1)] weights, and a dense layer
    with [n] outputs has [n * (d + 1)]. *)

Module Formulas.
Import Layers.
Local Open Scope Z_scope.

Definition gates (k : rnn_kind) : Z :=
  match k with SimpleRNN => 1 | LSTM => 4 | GRU => 3 end.

Definition recurrent_weights (k : rnn_kind) (u d : Z) : Z :=
  gates k * u * (d + u + 1).

Definition dense_weights (n d : Z) : Z := n * (d + 1).

(** The number of features: the last dimension of a shape. *)
Definition features (shape : list Z) : option Z := last shape.

Definition with_features (shape : list Z) (n : Z) : list Z :=
  (removelast shape ++ [n])%list.

(** What one layer does to the shape, and how many weights it has.
    Nothing is said about a layer wrapped to run in both directions. *)
Definition through (shape : list Z) (l : layer) : option (list Z * Z) :=
  match l, features shape with
  | Recurrent r, Some d =>
      let out := match return_sequences r with
                 | Some true => with_features shape (units r)
                 | _ => [units r]
                 end in
      Some (out, recurrent_weights (kind r) (units r) d)
  | Dense n _, Some d => Some (with_features shape n, dense_weights n d)
  | _, _ => None
  end.

Fixpoint through_all (shape : list Z) (ls : list layer)
  : option (list (list Z) * list Z) :=
  match ls with
  | [] => Some ([], [])
  | l :: r =>
      match through shape l with
      | Some (out, n) =>
          match through_all out r with
          | Some (shapes, ns) => Some (out :: shapes, n :: ns)
          | None => None
          end
      | None => None
      end
  end.

(** The shapes (the input first) and the weight counts of a stack. *)
Definition report (ls : list layer) : option (list (list Z) * list Z) :=
  match declared_input ls with
  | Some shape =>
      match through_all shape ls with
      | Some (shapes, ns) => Some (shape :: shapes, ns)
      | None => None
      end
  | None => None
  end.

(** The activation a layer's data row is named after: the one given, or for
    a recurrent layer, which the notebook never gives one, the framework's
    default as the recorded tables show it. *)
Definition activation_name (l : layer) : option string :=
  match l with
  | Recurrent _ => Some "tanh"
  | Dense _ (Some a) => Some a
  | _ => None
  end.

(** The operations of a stack, in the order the data meets them: the input,
    then each layer followed by its activation. *)
Fixpoint operations_after (ls : list layer) : option (list string) :=
  match ls with
  | [] => Some []
  | l :: r =>
      match activation_name l, operations_after r with
      | Some a, Some ops => Some (layer_name l :: a :: ops)
      | _, _ => None
      end
  end.

Definition operations (ls : list layer) : option (list string) :=
  option_map (cons "Input") (operations_after ls).

End Formulas.

(** ** Reading a run

    What the properties of the notebook look at in the log of a run. *)

Module Run.
Import Notebook Lexer Syntax Parser Kernel Table Layers.

(** The environment the notebook presupposes: the framework is installed,
    the printing package is what the shell cell installs. *)
Definition env0 : gset string := {["keras"]}.

(** The state that running the notebook in [env0] ends in. *)
Definition world0 : world :=
  match run env0 with
  | Ok w => w
  | Err _ => start env0
  end.

Definition is_shell (ev : event) : bool :=
  match ev with EvShell _ => true | _ => false end.

(** The calls of the printer: the cell and the arguments. *)
Definition printer_calls (evs : list (nat * event))
  : list (nat * list value * list (string * value)) :=
  flat_map (fun ie => match snd ie with
                      | EvCall c args kwargs _ =>
                          if value_is_printer c then [(fst ie, args, kwargs)]
                          else []
                      | _ => []
                      end) evs.

(** Python's [is]: the same object. *)
Definition same_object (a b : value) : bool :=
  match a, b with
  | VObj i _ _ _, VObj j _ _ _ => Nat.eqb i j
  | _, _ => false
  end.

Definition is_print_of (m : value) (ie : nat * event) : bool :=
  match snd ie with
  | EvCall c [a] [] _ => value_is_printer c && same_object a m
  | _ => false
  end.

(** The models a run builds: the cell, the model, and the cells of the later
    events that hand this very model to the printer. *)
Fixpoint built_models (evs : list (nat * event))
  : list (nat * value * list nat) :=
  match evs with
  | [] => []
  | ie :: rest =>
      match snd ie with
      | EvCall _ _ _ r =>
          if is_model r
          then (fst ie, r, map fst (filter (is_print_of r) rest))
               :: built_models rest
          else built_models rest
      | _ => built_models rest
      end
  end.

(** The layer objects a run constructs, with the constructor's arguments. *)
Definition layer_calls (evs : list (nat * event))
  : list (value * list value * list (string * value) * value) :=
  flat_map (fun ie => match snd ie with
                      | EvCall c args kwargs r =>
                          if is_layer_object r then [(c, args, kwargs, r)]
                          else []
                      | _ => []
                      end) evs.

(** The variables a run assigns: the cell, the name and the value. *)
Definition bindings (evs : list (nat * event)) : list (nat * string * value) :=
  flat_map (fun ie => match snd ie with
                      | EvBind x v => [(fst ie, x, v)]
                      | _ => []
                      end) evs.

(** The table recorded in the cell at position [i]. *)
Definition table_of_cell (i : nat) : option table :=
  match cells !! i with
  | Some c => printed_table c
  | None => None
  end.

(** The tokens of all code cells. *)
Definition code_tokens : list token :=
  flat_map (fun ic => lex (cell_text (snd ic))) code_cells.

(** The statements of all code cells, each with its cell. *)
Definition statements : list (nat * stmt) :=
  flat_map (fun ic => match parse (cell_text (snd ic)) with
                      | Some ss => map (fun s => (fst ic, s)) ss
                      | None => []
                      end) code_cells.

End Run.

(** ** What is stated about a run

    The predicates the properties below are stated with. *)

Module Statements.
Import Notebook Lexer Syntax Parser Kernel Table Layers Formulas Run.

(** Two states with the same kernel: they may differ in the packages of the
    environment only. *)
Definition same_kernel (w1 w2 : world) : Prop :=
  ns w1 = ns w2 /\ fresh w1 = fresh w2 /\ trace w1 = trace w2.

(** *** The printed tables *)

(** The column titles of the table. *)
Definition table_header : list string :=
  [ "OPERATION"; "DATA DIMENSIONS"; "WEIGHTS(N)"; "WEIGHTS(%)" ].

(** What a call of the printer in cell [i] left in the notebook: the call
    hands over one model; the cell's only output is a stream on standard
    output that reads as a table under the four column titles; the rows of
    the table name, in order, the operations of the model, one row each; and
    every share is the layer's weight count as a percentage of the total. *)
Definition prints_table (i : nat) (args : list value)
  (kwargs : list (string * value)) : Prop :=
  exists m ls t,
    args = [m] /\ kwargs = [] /\
    model_layers m = Some ls /\
    table_of_cell i = Some t /\
    header t = table_header /\
    operations ls = Some (operations_of t) /\
    length (rows t) = 1 + 2 * length ls /\
    shares_ok t = true.

(** A printed table agrees with the formulas: the weight counts it shows
    are those the formulas give for the layers of the model, the shape of
    the data being threaded from the declared input through the layers. *)
Definition agrees_with_formulas (i : nat) (args : list value) : Prop :=
  exists m ls t shapes,
    args = [m] /\ model_layers m = Some ls /\
    table_of_cell i = Some t /\
    report ls = Some (shapes, weights_of t).

(** *** One stack in place of another *)


(** The models that cell [i] builds. *)
Definition models_of_cell (evs : list (nat * event)) (i : nat)
  : list (nat * value * list nat) :=
  filter (fun b => Nat.eqb b.1.1 i) (built_models evs).

(** The layers of the model that cell [i] builds. *)
Definition layers_of_cell (evs : list (nat * event)) (i : nat)
  : option (list layer) :=
  match models_of_cell evs i with
  | [b] => model_layers b.1.2
  | _ => None
  end.


(** *** The flow from stack to printer *)

(** A built model is a stack of the expected shape. *)
Definition is_stack (m : value) : Prop :=
  exists ls, model_layers m = Some ls /\ well_shaped ls = true.

(** The flow in two steps: the model is a stack of the expected shape, and
    some later call hands it to the printer. *)
Definition built_then_printed (b : nat * value * list nat) : Prop :=
  is_stack b.1.2 /\ b.2 <> [].

(** The flow as the notebook has it: the model is a stack of the expected
    shape; it is handed to the printer once, in the cell that builds it,
    unless its layers are wrapped to run in both directions, in which case
    it is never handed to the printer. *)
Definition has_bidirectional (m : value) : bool :=
  match model_layers m with
  | Some ls => existsb (fun l => match l with
                                 | Bidirectional _ => true
                                 | _ => false
                                 end) ls
  | None => false
  end.

Definition built_and_printed_unless_bidirectional
  (b : nat * value * list nat) : Prop :=
  is_stack b.1.2 /\
  b.2 = (if has_bidirectional b.1.2 then [] else [b.1.1]).

(** The statement that hands the variable [model] to the printer. *)
Definition printer_statement : stmt :=
  SExpr (ECall (EName "sequential_model_to_ascii_printout")
               [EName "model"] []).

(** *** Layer descriptors *)

(** The layer classes the notebook constructs. *)
Definition layer_classes : list string :=
  [ "SimpleRNN"; "LSTM"; "GRU"; "Dense"; "Bidirectional" ].

(** The keyword a class may be given. *)
Definition allowed_keyword (class k : string) : bool :=
  if String.eqb class "Dense" then String.eqb k "activation"
  else if String.eqb class "Bidirectional" then false
  else String.eqb k "input_shape" || String.eqb k "return_sequences".

(** The positional argument a class is given: the layer to wrap for
    [Bidirectional], the number of units for the others. *)
Definition allowed_argument (class : string) (a : value) : bool :=
  if String.eqb class "Bidirectional"
  then match recurrent_of_value a with Some _ => true | None => false end
  else match a with VInt _ => true | _ => false end.

(** A constructor call that configures a layer with the attributes of a
    descriptor and nothing else. *)
Definition configured
  (c : value * list value * list (string * value) * value) : Prop :=
  exists class a l,
    c.1.1.1 = VExt "keras.layers" class /\
    In class layer_classes /\
    c.1.1.2 = [a] /\ allowed_argument class a = true /\
    Forall (fun kv => allowed_keyword class kv.1 = true) c.1.2 /\
    layer_of_value c.2 = Some l.

(** A call that takes the object [r] as an argument, or as an element of a
    list argument. *)
Definition takes (r : value) (ie : nat * event) : bool :=
  match ie.2 with
  | EvCall _ args _ _ =>
      existsb (fun a => same_object a r
                        || match a with
                           | VList vs => existsb (fun v => same_object v r) vs
                           | _ => false
                           end) args
  | _ => false
  end.

(** The layer objects a run constructs: the cell, the object, and the cells
    of the later calls that take it. *)
Fixpoint layer_fates (evs : list (nat * event))
  : list (nat * value * list nat) :=
  match evs with
  | [] => []
  | ie :: rest =>
      match ie.2 with
      | EvCall _ _ _ r =>
          if is_layer_object r
          then (ie.1, r, map fst (filter (takes r) rest)) :: layer_fates rest
          else layer_fates rest
      | _ => layer_fates rest
      end
  end.

(** *** Operations *)

(** The modules the notebook imports from. *)
Definition framework_modules : list string :=
  [ "keras.models"; "keras.layers"; "keras_sequential_ascii" ].

(** An operation of one of the three kinds: importing from the framework or
    the printing package, stacking (constructing a layer or a model, binding
    the model to a variable), and calling the printer. *)
Definition listed_operation (ev : event) : bool :=
  match ev with
  | EvImport m _ => existsb (String.eqb m) framework_modules
  | EvCall c _ _ r => value_is_printer c || is_model r || is_layer_object r
  | EvBind _ v => is_model v
  | EvShell _ => false
  end.

(** The shell escape of cell 2. *)
Definition pip_cell : nat * event :=
  (2, EvShell "pip install -q keras_sequential_ascii").

(** The punctuation the code cells use: brackets, comma, equals sign, dot;
    no operator of arithmetic, comparison or indexing. *)
Definition plain_punctuation (t : token) : bool :=
  match t with
  | TOp c => existsb (Ascii.eqb c) (list_ascii_of_string "()[],=.")
  | TBad _ => false
  | _ => true
  end.

(** The reserved words that define a function or a class. *)
Definition defining_keywords : list string := [ "def"; "class"; "lambda" ].

(** The reserved words that define, raise or handle an error. *)
Definition error_keywords : list string :=
  [ "class"; "raise"; "try"; "except"; "finally"; "assert"; "with" ].

Definition is_keyword_statement (s : stmt) : bool :=
  match s with SKeyword _ _ => true | _ => false end.

Definition is_shell_statement (s : stmt) : bool :=
  match s with SShell _ => true | _ => false end.

(** *** The environment *)

(** The packages the shell statements of some cells install. *)
Definition installs_of_stmt (s : stmt) : list string :=
  match s with
  | SShell cmd =>
      match pip_install (shell_words cmd) with
      | Some packages => packages
      | None => []
      end
  | _ => []
  end.

Definition installs_of_cell (ic : nat * cell) : list string :=
  match cell_type ic.2 with
  | markdown => []
  | code =>
      match parse (cell_text ic.2) with
      | Some ss => flat_map installs_of_stmt ss
      | None => []
      end
  end.

Definition installs (cs : list (nat * cell)) : list string :=
  flat_map installs_of_cell cs.

(** A call that is delegated: its callee is an object imported from the
    framework or the printing package. *)
Definition delegated (ev : event) : bool :=
  match ev with
  | EvCall (VExt m _) _ _ _ => existsb (String.eqb m) framework_modules
  | EvCall _ _ _ _ => false
  | _ => true
  end.

(** What a run imports: the module and the name. *)
Definition imported (evs : list (nat * event)) : list (string * string) :=
  flat_map (fun ie => match ie.2 with
                      | EvImport m x => [(m, x)]
                      | _ => []
                      end) evs.

(** No event of the run is a child process that the code of the notebook
    asks for, that is, a shell escape.  What an imported package starts on
    its own is not an event. *)
Definition no_child_process (evs : list (nat * event)) : Prop :=
  Forall (fun ie => is_shell ie.2 = false) evs.

(** The reserved words of a cell among a given list. *)
Definition uses_keywords (ks : list string) (c : cell) : list string :=
  filter (fun k => existsb (String.eqb k) ks) (keywords_of (lex (cell_text c))).

(** The names a state binds. *)
Definition bound_names (w : world) : list string :=
  map fst (map_to_list (ns w)).

End Statements.

(** ** Names and packages, checked before running

    A check of the code cells that follows what each statement needs and
    what it provides: the packages known to be installed, the names known to
    hold an imported object, and the names known to be bound at all.  A
    statement passes when what it reads is provided: an import needs its
    package, a call needs its callee to be an imported object, a name that
    is read needs to be bound.  The check is proved sound for the kernel
    below: cells that pass run to completion. *)

Module DefUse.
Import Notebook Lexer Syntax Parser Kernel.

Definition mem (x : string) (l : list string) : bool :=
  existsb (String.eqb x) l.

Fixpoint without (x : string) (l : list string) : list string :=
  match l with
  | [] => []
  | y :: r => if String.eqb y x then without x r else y :: without x r
  end.

Record facts := {
  packages : list string;     (* installed in the environment *)
  externals : list string;    (* names that hold an imported object *)
  bound : list string         (* names that are bound *)
}.

(** An expression whose evaluation cannot fail: every name it reads is
    bound, and every call is a call of a name that holds an imported
    object. *)
Fixpoint expr_ok (F : facts) (e : expr) {struct e} : bool :=
  match e with
  | EName x => mem x (bound F)
  | EInt _ | EStr _ | EBool _ | ENone => true
  | ETuple es | EList es => forallb (expr_ok F) es
  | EAttr _ _ => false
  | ECall (EName f) args kwargs =>
      mem f (externals F) && mem f (bound F)
      && forallb (expr_ok F) args
      && forallb (fun kv => expr_ok F (snd kv)) kwargs
  | ECall _ _ _ => false
  end.

(** What is known after a statement, if the statement passes. *)
Definition stmt_step (F : facts) (s : stmt) : option facts :=
  match s with
  | SShell cmd =>
      match pip_install (shell_words cmd) with
      | Some ps => Some {| packages := (ps ++ packages F)%list;
                           externals := externals F; bound := bound F |}
      | None => None
      end
  | SComment _ => Some F
  | SImportFrom m xs =>
      if mem (package_of m) (packages F) then
        Some {| packages := packages F;
                externals := (xs ++ externals F)%list;
                bound := (xs ++ bound F)%list |}
      else None
  | SImport _ => None
  | SAssign x e =>
      if expr_ok F e then
        Some {| packages := packages F;
                externals := without x (externals F);
                bound := x :: bound F |}
      else None
  | SExpr e => if expr_ok F e then Some F else None
  | SKeyword _ _ => None
  end.

Fixpoint stmts_step (F : facts) (ss : list stmt) : option facts :=
  match ss with
  | [] => Some F
  | s :: r =>
      match stmt_step F s with
      | Some F' => stmts_step F' r
      | None => None
      end
  end.

Definition cell_step (F : facts) (ic : nat * cell) : option facts :=
  match cell_type (snd ic) with
  | markdown => Some F
  | code =>
      match parse (cell_text (snd ic)) with
      | Some ss => stmts_step F ss
      | None => None
      end
  end.

Fixpoint cells_step (F : facts) (cs : list (nat * cell)) : option facts :=
  match cs with
  | [] => Some F
  | c :: r =>
      match cell_step F c with
      | Some F' => cells_step F' r
      | None => None
      end
  end.

(** Everything known in [F] is known in [G]. *)
Definition included (F G : facts) : bool :=
  forallb (fun p => mem p (packages G)) (packages F)
  && forallb (fun x => mem x (externals G)) (externals F)
  && forallb (fun x => mem x (bound G)) (bound F).

(** A cell that passes knowing [F] and leaves [F] known: it can be run
    again, and before or after any other such cell. *)
Definition rerunnable (F : facts) (ic : nat * cell) : bool :=
  match cell_step F ic with
  | Some F' => included F F'
  | None => false
  end.

(** The names a statement binds. *)
Definition targets (s : stmt) : list string :=
  match s with
  | SImportFrom _ xs => xs
  | SAssign x _ => [x]
  | _ => []
  end.

Definition cell_targets (ic : nat * cell) : list string :=
  match cell_type (snd ic) with
  | markdown => []
  | code =>
      match parse (cell_text (snd ic)) with
      | Some ss => flat_map targets ss
      | None => []
      end
  end.

(** Where only the framework is known to be installed. *)
Definition framework_only : facts :=
  {| packages := ["keras"]; externals := []; bound := [] |}.

(** The cells up to the imports, and the cells after them that carry code:
    those that build the models. *)
Definition setup_cells : list (nat * cell) := take 4 indexed_cells.

Definition model_cells : list (nat * cell) :=
  filter (fun ic => is_code (snd ic)) (drop 4 indexed_cells).

(** What is known after the imports. *)
Definition after_setup : facts :=
  match cells_step framework_only setup_cells with
  | Some F => F
  | None => framework_only
  end.

(** The callee of the first call a list of statements makes: the function
    of the first statement that is not a comment, when that statement is a
    call or assigns the result of one. *)
Definition first_callee (ss : list stmt) : option string :=
  match List.filter (fun s => match s with SComment _ => false | _ => true end)
                    ss with
  | SAssign _ (ECall (EName f) _ _) :: _ => Some f
  | SExpr (ECall (EName f) _ _) :: _ => Some f
  | _ => None
  end.

End DefUse.

(** ** More to read off a run and off the recorded tables *)

Module Observations.
Import Notebook Lexer Syntax Parser Kernel Table Layers Formulas Run Statements
       DefUse.

(** The data-dimension rows of a printed table are the shapes the formulas
    give: the declared input, then the output of each layer in turn. *)
Definition shapes_agree (i : nat) (args : list value) : Prop :=
  exists m ls t ws,
    args = [m] /\ model_layers m = Some ls /\
    table_of_cell i = Some t /\
    report ls = Some (dims_of t, ws).

(** The imported objects a run calls: the module and the name. *)
Definition called (evs : list (nat * event)) : list (string * string) :=
  flat_map (fun ie => match snd ie with
                      | EvCall (VExt m x) _ _ _ => [(m, x)]
                      | _ => []
                      end) evs.

Definition same_import (a b : string * string) : bool :=
  String.eqb (fst a) (fst b) && String.eqb (snd a) (snd b).

(** What a run imports and never calls. *)
Definition never_called (evs : list (nat * event)) : list (string * string) :=
  List.filter (fun a => negb (existsb (same_import a) (called evs)))
              (imported evs).

(** *** The layout of a table

    The text of a table, written out from its rows: every field is set
    flush right in a column of fixed width. *)

Fixpoint spaces (n : nat) : string :=
  match n with
  | O => ""
  | S k => String " "%char (spaces k)
  end.

Definition pad_left (n : nat) (s : string) : string :=
  spaces (n - String.length s) +:+ s.

Definition numeral (n : Z) : string :=
  NilZero.string_of_uint (N.to_uint (Z.to_N n)).

(** A share in tenths of a percent, as [92.0%]. *)
Definition render_share (p : Z) : string :=
  numeral (p / 10) +:+ "." +:+ numeral (p mod 10) +:+ "%".

(** The dimensions, five columns each, the whole set flush right in
    twelve. *)
Definition render_dims (ds : list Z) : string :=
  pad_left 12 (fold_right String.append ""
                 (map (fun d => pad_left 5 (numeral d)) ds)).

Definition rule : string := "-------------------".

Definition render_row (r : row) : string :=
  match r with
  | RData o g ds => pad_left 20 o +:+ "   " +:+ g +:+ render_dims ds +:+ nl
  | RWeights o g n p =>
      pad_left 20 o +:+ "   " +:+ g +:+ " " +:+ rule
      +:+ pad_left 10 (numeral n) +:+ pad_left 9 (render_share p) +:+ nl
  end.

Definition render_header (h : list string) : string :=
  match h with
  | [a; b; c; d] =>
      pad_left 20 a +:+ pad_left 26 b +:+ pad_left 13 c +:+ pad_left 13 d +:+ nl
  | _ => nl
  end.

Definition render (t : table) : list string :=
  render_header (header t) :: nl :: map render_row (rows t).

(** The state after the cells up to the imports, in [env0]. *)
Definition setup_world : world :=
  match run_cells (start env0) setup_cells with
  | Ok w => w
  | Err _ => start env0
  end.

(** The name, the size and the input features of each layer of a stack. *)
Fixpoint parameters_from (shape : list Z) (ls : list layer)
  : option (list (string * Z * Z)) :=
  match ls with
  | [] => Some []
  | l :: r =>
      let size := match l with
                  | Recurrent k | Bidirectional k => units k
                  | Dense n _ => n
                  end in
      match features shape, through shape l with
      | Some d, Some (out, _) =>
          option_map (cons (layer_name l, size, d)) (parameters_from out r)
      | _, _ => None
      end
  end.

Definition layer_parameters (ls : list layer) : option (list (string * Z * Z)) :=
  match declared_input ls with
  | Some shape => parameters_from shape ls
  | None => None
  end.

(** The imported names a run calls, each once. *)
Definition called_names (evs : list (nat * event)) : list string :=
  remove_dups (map snd (called evs)).
(** The table recorded in cell 9. *)
Definition table_9 : table :=
  match table_of_cell 9 with
  | Some t => t
  | None => {| header := []; rows := [] |}
  end.

End Observations.

(** ** The kernel when what lies outside may fail

    The kernel above is the run in which nothing outside the notebook goes
    wrong.  What an import does, what a call of the framework or of the
    printer does, and what a shell command leaves installed are not in the
    notebook; here they are left open.  An import or a call may raise an
    exception, of whatever class and with whatever message, depending on the
    environment and on the arguments; a shell command may leave any set of
    packages.  The kernel has no handler of its own and the notebook has
    none either, so what is raised ends the run. *)

Module Failing.
Import Notebook Lexer Syntax Parser Kernel DefUse.

(** Why a run ends early: an error of the kernel's own (a syntax error, an
    unbound name, a call of what is not callable), or an exception raised
    outside the notebook, kept as it was raised. *)
Inductive failure :=
| Own (e : error)
| Raised (exception message : string).

Inductive outcome (A : Type) :=
| Done (a : A)
| Failed (f : failure).
Arguments Done {A} a.
Arguments Failed {A} f.

(** What lies outside: whether an import raises, whether a call of an
    imported object raises, and the packages a shell command leaves. *)
Record outside := {
  import_raises : gset string -> string -> list string -> option (string * string);
  call_raises : gset string -> value -> list value -> list (string * value)
                -> option (string * string);
  shell_leaves : string -> gset string -> gset string
}.

Definition F (A : Type) : Type := heap -> outcome (A * heap).

#[local] Instance F_ret : MRet F := fun A a h => Done (a, h).
#[local] Instance F_bind : MBind F := fun A B f c h =>
  match c h with
  | Done (a, h') => f a h'
  | Failed e => Failed e
  end.

Definition fail_with {A} (f : failure) : F A := fun _ => Failed f.

(** Calling a value: what is not an imported object is not callable; an
    imported object is asked, and either raises or returns as in the
    kernel above. *)
Definition call_in (O : outside) (env : gset string) (c : value)
  (args : list value) (kwargs : list (string * value)) : F value :=
  match c with
  | VExt _ _ =>
      match call_raises O env c args kwargs with
      | Some (x, msg) => fail_with (Raised x msg)
      | None => fun h =>
          match call c args kwargs h with
          | Ok r => Done r
          | Err e => Failed (Own e)
          end
      end
  | _ => fail_with (Own TypeError)
  end.

Fixpoint eval_in (O : outside) (env : gset string) (ns : gmap string value)
  (e : expr) {struct e} : F value :=
  match e with
  | EName x =>
      match ns !! x with
      | Some v => mret v
      | None => fail_with (Own (NameError x))
      end
  | EInt n => mret (VInt n)
  | EStr s => mret (VStr s)
  | EBool b => mret (VBool b)
  | ENone => mret VNone
  | ETuple es =>
      vs ← (fix go (es : list expr) : F (list value) :=
              match es with
              | [] => mret []
              | e :: r => v ← eval_in O env ns e; vs ← go r; mret (v :: vs)
              end) es;
      mret (VTuple vs)
  | EList es =>
      vs ← (fix go (es : list expr) : F (list value) :=
              match es with
              | [] => mret []
              | e :: r => v ← eval_in O env ns e; vs ← go r; mret (v :: vs)
              end) es;
      mret (VList vs)
  | EAttr _ _ => fail_with (Own (Unsupported "attribute"))
  | ECall f args kwargs =>
      c ← eval_in O env ns f;
      vs ← (fix go (es : list expr) : F (list value) :=
              match es with
              | [] => mret []
              | e :: r => v ← eval_in O env ns e; vs ← go r; mret (v :: vs)
              end) args;
      kvs ← (fix go (kes : list (string * expr)) : F (list (string * value)) :=
               match kes with
               | [] => mret []
               | (k, e) :: r =>
                   v ← eval_in O env ns e; kvs ← go r; mret ((k, v) :: kvs)
               end) kwargs;
      call_in O env c vs kvs
  end.

(** One statement of cell [i].  A shell escape never raises in Python,
    whatever its command does. *)
Definition exec_stmt_in (O : outside) (i : nat) (w : world) (s : stmt)
  : outcome world :=
  match s with
  | SShell cmd =>
      Done {| installed := shell_leaves O cmd (installed w);
              ns := ns w; fresh := fresh w;
              trace := (i, EvShell cmd) :: trace w |}
  | SComment _ => Done w
  | SImportFrom m xs =>
      match import_raises O (installed w) m xs with
      | Some (x, msg) => Failed (Raised x msg)
      | None =>
          Done {| installed := installed w;
                  ns := fold_left (fun n x => <[x := VExt m x]> n) xs (ns w);
                  fresh := fresh w;
                  trace := (rev (tagged i (map (EvImport m) xs)) ++ trace w)%list |}
      end
  | SImport m => Failed (Own (Unsupported "import"))
  | SAssign x e =>
      match eval_in O (installed w) (ns w) e
                    {| next_id := fresh w; calls := [] |} with
      | Done (v, h) =>
          Done {| installed := installed w;
                  ns := <[x := v]> (ns w);
                  fresh := next_id h;
                  trace := ((i, EvBind x v) :: tagged i (calls h)
                            ++ trace w)%list |}
      | Failed f => Failed f
      end
  | SExpr e =>
      match eval_in O (installed w) (ns w) e
                    {| next_id := fresh w; calls := [] |} with
      | Done (_, h) =>
          Done {| installed := installed w; ns := ns w; fresh := next_id h;
                  trace := (tagged i (calls h) ++ trace w)%list |}
      | Failed f => Failed f
      end
  | SKeyword k _ => Failed (Own (Unsupported k))
  end.

Fixpoint exec_stmts_in (O : outside) (i : nat) (w : world) (ss : list stmt)
  : outcome world :=
  match ss with
  | [] => Done w
  | s :: r =>
      match exec_stmt_in O i w s with
      | Done w' => exec_stmts_in O i w' r
      | Failed f => Failed f
      end
  end.

Definition run_cell_in (O : outside) (w : world) (ic : nat * cell)
  : outcome world :=
  match cell_type (snd ic) with
  | markdown => Done w
  | code =>
      match parse (cell_text (snd ic)) with
      | Some ss => exec_stmts_in O (fst ic) w ss
      | None => Failed (Own SyntaxError)
      end
  end.

Fixpoint run_cells_in (O : outside) (w : world) (cs : list (nat * cell))
  : outcome world :=
  match cs with
  | [] => Done w
  | c :: r =>
      match run_cell_in O w c with
      | Done w' => run_cells_in O w' r
      | Failed f => Failed f
      end
  end.

(** A failure that came from outside: an exception that an import, or a
    call of an imported object, raised, with its class and message as
    raised. *)
Definition from_outside (O : outside) (f : failure) : Prop :=
  exists x msg,
    f = Raised x msg /\
    ((exists env m y args kwargs,
         call_raises O env (VExt m y) args kwargs = Some (x, msg)) \/
     (exists env m xs, import_raises O env m xs = Some (x, msg))).

(** A computation that ends in a value or in a failure from outside. *)
Definition sound_in (O : outside) {A} (c : F A) : Prop :=
  forall h, (exists a h', c h = Done (a, h')) \/
            (exists f, c h = Failed f /\ from_outside O f).

(** What the facts say of the names of a state. *)
Definition names_hold (G : facts) (w : world) : Prop :=
  (forall x, In x (externals G) -> exists m y, ns w !! x = Some (VExt m y)) /\
  (forall x, In x (bound G) -> is_Some (ns w !! x)).

(** An outside where nothing raises and pip installs what it is told to. *)
Definition quiet : outside :=
  {| import_raises := fun _ _ _ => None;
     call_raises := fun _ _ _ _ => None;
     shell_leaves := fun cmd env =>
       match pip_install (shell_words cmd) with
       | Some ps => env ∪ list_to_set ps
       | None => env
       end |}.

(** An outside where the framework refuses to build a dense layer. *)
Definition dense_refused : outside :=
  {| import_raises := fun _ _ _ => None;
     call_raises := fun _ c _ _ =>
       match c with
       | VExt _ x => if String.eqb x "Dense"
                     then Some ("ValueError", "refused") else None
       | _ => None
       end;
     shell_leaves := fun _ env => env |}.

(** A value computed with the outside left open is the value of the kernel
    above. *)
Definition agrees {A} (c : F A) (d : M A) : Prop :=
  forall h a h', c h = Done (a, h') -> d h = Ok (a, h').

(** A step that ends in a state of which the facts hold, or in a failure
    from outside. *)
Definition sound_step (O : outside) (G' : facts) (r : outcome world) : Prop :=
  (exists w', r = Done w' /\ names_hold G' w') \/
  (exists f, r = Failed f /\ from_outside O f).

End Failing.

(** * Properties *)

Import Notebook Lexer Syntax Parser Kernel Table Layers Formulas Run Statements.
Import DefUse Observations Failing.

(** ** Tactics

    The log of a run is large; facts about it are computed, never unfolded
    by hand. *)

(** Replace a closed term by its value. *)
Ltac calc t :=
  let v := eval vm_compute in t in
  let E := fresh "E" in
  assert (E : t = v) by (vm_compute; reflexivity);
  rewrite E; clear E.

(** Split a statement into its equations and compute each. *)
Ltac crunch :=
  repeat match goal with
         | |- _ /\ _ => split
         | |- exists _, _ => eexists
         | |- Forall _ [] => constructor
         | |- Forall _ (_ :: _) => constructor
         | |- _ = _ => vm_compute; reflexivity
         | |- _ => progress cbv beta
         end.

(** ** The cells as the parser and the table reader see them *)

Example parse_cell_2 :
  parse (cell_text cell_2)
  = Some [ SComment " if you need to install that";
           SShell "pip install -q keras_sequential_ascii" ].
Proof. vm_compute. reflexivity. Qed.

Example parse_cell_3 :
  parse (cell_text cell_3)
  = Some [ SImportFrom "keras.models" ["Sequential"];
           SImportFrom "keras.layers"
             ["Flatten"; "SimpleRNN"; "Dense"; "Dropout"; "LSTM"; "GRU";
              "Bidirectional"];
           SImportFrom "keras_sequential_ascii"
             ["sequential_model_to_ascii_printout"] ].
Proof. vm_compute. reflexivity. Qed.

Example parse_cell_5 :
  parse (cell_text cell_5)
  = Some [ SAssign "model"
             (ECall (EName "Sequential")
                [EList
                   [ECall (EName "SimpleRNN") [EInt 32]
                      [("return_sequences", EBool false);
                       ("input_shape", ETuple [EInt 10; EInt 26])];
                    ECall (EName "Dense") [EInt 5]
                      [("activation", EStr "softmax")]]] []);
           printer_statement ].
Proof. vm_compute. reflexivity. Qed.

Example parse_cell_8 :
  parse (cell_text cell_8)
  = Some [ SAssign "model"
             (ECall (EName "Sequential")
                [EList
                   [ECall (EName "Bidirectional")
                      [ECall (EName "LSTM") [EInt 32]
                         [("input_shape", ETuple [EInt 10; EInt 26]);
                          ("return_sequences", EBool true)]] [];
                    ECall (EName "Bidirectional")
                      [ECall (EName "LSTM") [EInt 32] []] [];
                    ECall (EName "Dense") [EInt 5]
                      [("activation", EStr "softmax")]]] []);
           SComment " sequential_model_to_ascii_printout(model)" ].
Proof. vm_compute. reflexivity. Qed.

Example table_of_cell_9 :
  table_of_cell 9
  = Some {| header := table_header;
            rows := [ RData "Input" "#####" [10; 26]%Z;
                      RWeights "LSTM" "LLLLL" 7552 471;
                      RData "tanh" "#####" [10; 32]%Z;
                      RWeights "LSTM" "LLLLL" 8320 519;
                      RData "tanh" "#####" [32]%Z;
                      RWeights "Dense" "XXXXX" 165 10;
                      RData "softmax" "#####" [5]%Z ] |}.
Proof. vm_compute. reflexivity. Qed.

(** A cell with arithmetic, a definition or a handler is told apart: the
    first does not parse as a call, the others are statements led by a
    reserved word. *)
Example parse_arithmetic : parse "n = 32 * 2" = None.
Proof. vm_compute. reflexivity. Qed.

Example parse_try :
  option_map (map is_keyword_statement) (parse "try:") = Some [true].
Proof. vm_compute. reflexivity. Qed.

Example lex_def :
  uses_keywords defining_keywords
    {| cell_type := code; execution_count := None; outputs := [];
       source := ["def f(x): return x"] |} = ["def"].
Proof. vm_compute. reflexivity. Qed.

(** ** General facts about the kernel *)

Section KernelFacts.

Lemma same_kernel_refl w : same_kernel w w.
Proof. repeat split. Qed.

(** A statement that succeeds in two environments does the same to the
    kernel in both. *)
Lemma exec_stmt_same_kernel i s w1 w2 w1' w2' :
  same_kernel w1 w2 ->
  exec_stmt i w1 s = Ok w1' -> exec_stmt i w2 s = Ok w2' ->
  same_kernel w1' w2'.
Proof.
  intros (Hns & Hfr & Htr) H1 H2.
  destruct s as [cmd|c|m xs|m|x e|e|k r]; unfold exec_stmt in H1, H2.
  - destruct (pip_install (shell_words cmd)); try discriminate.
    simplify_eq. repeat split; simpl; congruence.
  - simplify_eq. by repeat split.
  - destruct (bool_decide (package_of m ∈ installed w1)); try discriminate.
    destruct (bool_decide (package_of m ∈ installed w2)); try discriminate.
    simplify_eq. repeat split; simpl; congruence.
  - discriminate.
  - rewrite Hns, Hfr in H1.
    destruct (eval (ns w2) e _) as [[v h]|]; try discriminate.
    simplify_eq. repeat split; simpl; congruence.
  - rewrite Hns, Hfr in H1.
    destruct (eval (ns w2) e _) as [[v h]|]; try discriminate.
    simplify_eq. repeat split; simpl; congruence.
  - discriminate.
Qed.

Lemma exec_stmts_same_kernel i ss : forall w1 w2 w1' w2',
  same_kernel w1 w2 ->
  exec_stmts i w1 ss = Ok w1' -> exec_stmts i w2 ss = Ok w2' ->
  same_kernel w1' w2'.
Proof.
  induction ss as [|s ss IH]; simpl; intros w1 w2 w1' w2' Hk H1 H2.
  - by simplify_eq.
  - destruct (exec_stmt i w1 s) as [u1|] eqn:E1; try discriminate.
    destruct (exec_stmt i w2 s) as [u2|] eqn:E2; try discriminate.
    eapply IH; [|done..]. eauto using exec_stmt_same_kernel.
Qed.

Lemma run_cell_same_kernel c w1 w2 w1' w2' :
  same_kernel w1 w2 ->
  run_cell w1 c = Ok w1' -> run_cell w2 c = Ok w2' ->
  same_kernel w1' w2'.
Proof.
  unfold run_cell. intros Hk H1 H2.
  destruct (cell_type c.2).
  - by simplify_eq.
  - destruct (parse _); try discriminate.
    eauto using exec_stmts_same_kernel.
Qed.

Lemma run_cells_same_kernel cs : forall w1 w2 w1' w2',
  same_kernel w1 w2 ->
  run_cells w1 cs = Ok w1' -> run_cells w2 cs = Ok w2' ->
  same_kernel w1' w2'.
Proof.
  induction cs as [|c cs IH]; simpl; intros w1 w2 w1' w2' Hk H1 H2.
  - by simplify_eq.
  - destruct (run_cell w1 c) as [u1|] eqn:E1; try discriminate.
    destruct (run_cell w2 c) as [u2|] eqn:E2; try discriminate.
    eapply IH; [|done..]. eauto using run_cell_same_kernel.
Qed.

(** The notebook runs to completion in the presupposed environment. *)
Lemma run_env0 : run env0 = Ok world0.
Proof. vm_compute. reflexivity. Qed.

(** In whatever environment the notebook runs to completion, the log of the
    run and the final variables are those of the run in [env0]. *)
Lemma run_same_kernel env w : run env = Ok w -> same_kernel w world0.
Proof.
  intros H.
  assert (Y : same_kernel (start env) (start env0))
    by (split; [reflexivity | split; reflexivity]).
  exact (run_cells_same_kernel _ _ _ _ _ Y H run_env0).
Qed.

Lemma run_events env w : run env = Ok w -> events w = events world0.
Proof.
  intros H. apply run_same_kernel in H as (_ & _ & Htr).
  unfold events. exact (f_equal (@rev _) Htr).
Qed.

Lemma run_ns env w : run env = Ok w -> ns w = ns world0.
Proof. intros H. apply run_same_kernel in H as (Hns & _ & _). exact Hns. Qed.

End KernelFacts.

(** ** The printed tables *)

Module Printout.

(** C1: every model that the notebook passes to the printer (in cells 5, 7,
    9 and 11) has, as the recorded result, a text table on standard output
    with the columns OPERATION, DATA DIMENSIONS, WEIGHTS(N) and WEIGHTS(%),
    and one row for each operation of the model. *)
Theorem printed_result_is_table env w :
  run env = Ok w ->
  map (fun c => c.1.1) (printer_calls (events w)) = [5; 7; 9; 11] /\
  Forall (fun c => prints_table c.1.1 c.1.2 c.2) (printer_calls (events w)).
Proof.
  intros H. rewrite (run_events _ _ H).
  calc (printer_calls (events world0)).
  unfold prints_table. crunch.
Qed.

Lemma printed_result_is_table_witness :
  run env0 = Ok world0 /\
  map (fun c => c.1.1) (printer_calls (events world0)) = [5; 7; 9; 11] /\
  Forall (fun c => prints_table c.1.1 c.1.2 c.2)
         (printer_calls (events world0)).
Proof.
  split; [vm_compute; reflexivity|].
  apply (printed_result_is_table env0 world0). vm_compute; reflexivity.
Defined.

End Printout.

(** ** Weight counts *)

Module Weights.
Local Open Scope Z_scope.

(** The weights of a recurrent layer are, per gate, an input kernel, a
    recurrent kernel and a bias. *)
Lemma recurrent_weights_parts k u d :
  recurrent_weights k u d = gates k * (d * u + u * u + u).
Proof. unfold recurrent_weights. ring. Qed.

(** The weights of a dense layer are a kernel and a bias. *)
Lemma dense_weights_parts n d : dense_weights n d = d * n + n.
Proof. unfold dense_weights. ring. Qed.

(** C8: the printer is called in cells 5, 7, 9 and 11, and the weight
    counts it prints are those of the standard formulas, as exact integers,
    for the layers the cells construct: with 32 units on the input of shape
    (10, 26), SimpleRNN prints 32*(26+32+1) = 1888 and LSTM prints
    4*32*(26+32+1) = 7552; the second LSTM(32), on a sequence of 32
    features, prints 4*32*(32+32+1) = 8320; Dense(5) on 32 features prints
    5*(32+1) = 165. *)
Theorem printed_weights_follow_formulas env w :
  run env = Ok w ->
  map (fun c => c.1.1) (printer_calls (events w)) = [5; 7; 9; 11]%nat /\
  Forall (fun c => agrees_with_formulas c.1.1 c.1.2) (printer_calls (events w))
  /\ layers_of_cell (events w) 5 ≫= layer_parameters
     = Some [("SimpleRNN", 32, 26); ("Dense", 5, 32)]
  /\ layers_of_cell (events w) 7 ≫= layer_parameters
     = Some [("LSTM", 32, 26); ("Dense", 5, 32)]
  /\ layers_of_cell (events w) 9 ≫= layer_parameters
     = Some [("LSTM", 32, 26); ("LSTM", 32, 32); ("Dense", 5, 32)]
  /\ weights_of <$> table_of_cell 5
     = Some [recurrent_weights SimpleRNN 32 26; dense_weights 5 32]
  /\ weights_of <$> table_of_cell 7
     = Some [recurrent_weights LSTM 32 26; dense_weights 5 32]
  /\ weights_of <$> table_of_cell 9
     = Some [recurrent_weights LSTM 32 26; recurrent_weights LSTM 32 32;
             dense_weights 5 32]
  /\ recurrent_weights SimpleRNN 32 26 = 32 * (26 + 32 + 1)
  /\ recurrent_weights LSTM 32 26 = 4 * 32 * (26 + 32 + 1)
  /\ recurrent_weights LSTM 32 32 = 4 * 32 * (32 + 32 + 1)
  /\ dense_weights 5 32 = 5 * (32 + 1)
  /\ [recurrent_weights SimpleRNN 32 26; recurrent_weights LSTM 32 26;
      recurrent_weights LSTM 32 32; dense_weights 5 32]
     = [1888; 7552; 8320; 165].
Proof.
  intros H. rewrite (run_events _ _ H).
  split; [vm_compute; reflexivity|].
  calc (printer_calls (events world0)).
  unfold agrees_with_formulas. crunch.
Qed.

Lemma printed_weights_follow_formulas_witness :
  run env0 = Ok world0 /\
  map (fun c => c.1.1) (printer_calls (events world0)) = [5; 7; 9; 11]%nat /\
  Forall (fun c => agrees_with_formulas c.1.1 c.1.2)
         (printer_calls (events world0)).
Proof.
  split; [vm_compute; reflexivity|].
  destruct (printed_weights_follow_formulas env0 world0) as (A & B & _);
    [vm_compute; reflexivity|].
  split; assumption.
Defined.

End Weights.

(** ** GRU in place of LSTM *)

Module DropIn.
Local Open Scope Z_scope.

(** By the formulas a GRU layer has three gates where an LSTM has four. *)
Lemma gru_lstm_formula u d :
  4 * recurrent_weights GRU u d = 3 * recurrent_weights LSTM u d.
Proof. unfold recurrent_weights. simpl gates. ring. Qed.



End DropIn.

(** ** The bidirectional stack *)

Module Bidirectional.

(** C10: the cell that stacks the Bidirectional(LSTM(...)) layers builds the
    model and binds it to [model], but its call of the printer is a comment;
    no event of the run hands this model to the printer, the cell has no
    output, and it is the only model of the notebook with that fate, so no
    recorded table shows a layer that runs in both directions. *)
Theorem bidirectional_model_is_not_printed env w :
  run env = Ok w ->
  exists c assign comment m ls,
    cells !! 8 = Some c /\
    parse (cell_text c) = Some [assign; SComment comment] /\
    parse comment = Some [printer_statement] /\
    models_of_cell (events w) 8 = [(8, m, [])] /\
    model_layers m = Some ls /\
    map layer_name ls = ["Bidirectional"; "Bidirectional"; "Dense"] /\
    filter (fun b => Nat.eqb b.1.1 8) (bindings (events w)) = [(8, "model", m)] /\
    filter (fun p => Nat.eqb p.1.1 8) (printer_calls (events w)) = [] /\
    outputs c = [] /\
    map (fun b => b.1.1)
        (filter (fun b => Nat.eqb (length b.2) 0) (built_models (events w)))
      = [8] /\
    map (fun b => b.1.1)
        (filter (fun b => has_bidirectional b.1.2) (built_models (events w)))
      = [8].
Proof.
  intros H. rewrite (run_events _ _ H).
  calc (models_of_cell (events world0) 8).
  do 5 eexists.
  split; [vm_compute; reflexivity|].
  split; [vm_compute; reflexivity|].
  crunch.
Qed.

Lemma bidirectional_model_is_not_printed_witness :
  run env0 = Ok world0 /\
  exists m, models_of_cell (events world0) 8 = [(8, m, [])].
Proof.
  split; [vm_compute; reflexivity|].
  destruct (bidirectional_model_is_not_printed env0 world0)
    as (c & a & cm & m & ls & _ & _ & _ & Hm & _); [vm_compute; reflexivity|].
  exists m. exact Hm.
Defined.

End Bidirectional.

(** ** From stack to printer *)

Module Flow.

(** The cells that build a model. *)
Lemma model_cells env w :
  run env = Ok w ->
  map (fun b => b.1.1) (built_models (events w)) = [5; 7; 8; 9; 11].
Proof. intros H. rewrite (run_events _ _ H). vm_compute. reflexivity. Qed.

(** C3, as stated, fails: the model built in cell 8 is a stack of the
    expected shape, but no later call hands it to the printer. *)
Lemma not_every_model_is_printed :
  run env0 = Ok world0 /\
  ~ Forall built_then_printed (built_models (events world0)).
Proof.
  split; [vm_compute; reflexivity|].
  calc (built_models (events world0)).
  intros H. do 2 apply Forall_inv_tail in H. apply Forall_inv in H.
  destruct H as [_ Hp]. apply Hp. reflexivity.
Qed.

(** C3, amended: every model the notebook builds is a stack of the shape
    input, recurrent layer(s), dense layer, activation; it is handed to the
    printer once, in the cell that builds it, except for the stack of cell 8,
    whose recurrent layers are wrapped to run in both directions and which
    is never handed to the printer. *)
Theorem models_are_stacks_and_printed_unless_bidirectional env w :
  run env = Ok w ->
  map (fun b => b.1.1) (built_models (events w)) = [5; 7; 8; 9; 11] /\
  Forall built_and_printed_unless_bidirectional (built_models (events w)) /\
  map (fun b => b.1.1)
      (filter (fun b => has_bidirectional b.1.2) (built_models (events w)))
    = [8].
Proof.
  intros H. rewrite (run_events _ _ H).
  calc (built_models (events world0)).
  unfold built_and_printed_unless_bidirectional, is_stack. crunch.
Qed.

Lemma models_are_stacks_and_printed_unless_bidirectional_witness :
  run env0 = Ok world0 /\
  Forall built_and_printed_unless_bidirectional (built_models (events world0)).
Proof.
  split; [vm_compute; reflexivity|].
  apply (models_are_stacks_and_printed_unless_bidirectional env0 world0).
  vm_compute; reflexivity.
Defined.

End Flow.

(** ** Checking a list by computation *)

Lemma Forall_bool {A} (f : A -> bool) (P : A -> Prop) (l : list A) :
  (forall x, f x = true -> P x) -> forallb f l = true -> Forall P l.
Proof.
  intros HP. induction l as [|x l IH]; simpl; intros H; constructor.
  - apply HP. destruct (f x); [reflexivity | discriminate].
  - apply IH. destruct (f x); [exact H | discriminate].
Qed.

Lemma Forall_true {A} (f : A -> bool) (l : list A) :
  forallb f l = true -> Forall (fun x => f x = true) l.
Proof. apply Forall_bool. auto. Qed.

Ltac in_list := vm_compute; repeat (first [left; reflexivity | right]).

(** ** Layer descriptors *)

Module Descriptors.

(** C4: every layer the notebook constructs is configured with the
    attributes of a descriptor only: the kind of layer (SimpleRNN, LSTM, GRU,
    Dense, or the Bidirectional wrapper around a recurrent layer), the
    number of units, the input shape and whether sequences are returned, and
    for Dense its activation.  Every layer object is taken, in the cell that
    constructs it, by exactly one constructor of the framework (the wrapper
    or the model); the only variable the notebook assigns is [model], always
    to a model, and no variable ever holds a layer. *)
Theorem layers_are_configured_by_descriptor_attributes env w :
  run env = Ok w ->
  Forall configured (layer_calls (events w)) /\
  length (layer_calls (events w)) = 15 /\
  Forall (fun f => f.2 = [f.1.1]) (layer_fates (events w)) /\
  length (layer_fates (events w)) = 15 /\
  Forall (fun b => b.1.2 = "model" /\ is_model b.2 = true)
         (bindings (events w)) /\
  Forall (fun kv => is_layer_object kv.2 = false) (map_to_list (ns w)).
Proof.
  intros H. rewrite (run_events _ _ H), (run_ns _ _ H).
  split.
  { calc (layer_calls (events world0)). unfold configured.
    repeat match goal with
           | |- Forall _ [] => constructor
           | |- Forall _ (_ :: _) => constructor
           | |- exists _, _ => eexists
           | |- _ /\ _ => split
           | |- In _ _ => in_list
           | |- Forall _ _ => apply Forall_true; vm_compute; reflexivity
           | |- _ = _ => vm_compute; reflexivity
           end. }
  split; [vm_compute; reflexivity|].
  split.
  { apply (Forall_bool (fun f => match f.2 with
                                 | [i] => Nat.eqb i f.1.1
                                 | _ => false
                                 end)).
    - intros [[i v] [|j [|? ?]]]; simpl; intros E;
        [discriminate E | | discriminate E].
      apply Nat.eqb_eq in E. subst j. reflexivity.
    - vm_compute; reflexivity. }
  split; [vm_compute; reflexivity|].
  split.
  { apply (Forall_bool (fun b => String.eqb b.1.2 "model" && is_model b.2)).
    - intros [[i x] v]; simpl. intros E.
      apply andb_prop in E as [E1 E2]. apply String.eqb_eq in E1. auto.
    - vm_compute; reflexivity. }
  apply (Forall_bool (fun kv => negb (is_layer_object kv.2))).
  - intros kv E. apply negb_true_iff in E. exact E.
  - vm_compute; reflexivity.
Qed.

Lemma layers_are_configured_by_descriptor_attributes_witness :
  run env0 = Ok world0 /\ Forall configured (layer_calls (events world0)).
Proof.
  split; [vm_compute; reflexivity|].
  apply (layers_are_configured_by_descriptor_attributes env0 world0).
  vm_compute; reflexivity.
Defined.

End Descriptors.

(** ** The environment and errors: general facts *)

Section EnvironmentFacts.

Lemma union_nothing (X : gset string) : X = X ∪ list_to_set [].
Proof. simpl. rewrite (right_id_L ∅ (∪)). reflexivity. Qed.

(** A statement adds to the environment the packages it installs, and
    nothing else. *)
Lemma exec_stmt_installed i w s w' :
  exec_stmt i w s = Ok w' ->
  installed w' = installed w ∪ list_to_set (installs_of_stmt s).
Proof.
  destruct s as [cmd|c|m xs|m|x e|e|k r];
    unfold exec_stmt, installs_of_stmt; intros H.
  - destruct (pip_install (shell_words cmd)); [|discriminate H].
    injection H as <-. reflexivity.
  - injection H as <-. apply union_nothing.
  - destruct (bool_decide _); [|discriminate H].
    injection H as <-. apply union_nothing.
  - discriminate H.
  - destruct (eval _ _ _) as [[v h]|]; [|discriminate H].
    injection H as <-. apply union_nothing.
  - destruct (eval _ _ _) as [[v h]|]; [|discriminate H].
    injection H as <-. apply union_nothing.
  - discriminate H.
Qed.

Lemma exec_stmts_installed i ss : forall w w',
  exec_stmts i w ss = Ok w' ->
  installed w' = installed w ∪ list_to_set (flat_map installs_of_stmt ss).
Proof.
  induction ss as [|s ss IH]; simpl; intros w w' H.
  - injection H as <-. apply union_nothing.
  - destruct (exec_stmt i w s) as [u|] eqn:E; [|discriminate H].
    rewrite (IH _ _ H), (exec_stmt_installed _ _ _ _ E).
    rewrite list_to_set_app_L, (assoc_L (∪)). reflexivity.
Qed.

Lemma run_cell_installed ic w w' :
  run_cell w ic = Ok w' ->
  installed w' = installed w ∪ list_to_set (installs_of_cell ic).
Proof.
  unfold run_cell, installs_of_cell. destruct (cell_type ic.2); intros H.
  - injection H as <-. apply union_nothing.
  - destruct (parse _); [|discriminate H].
    exact (exec_stmts_installed _ _ _ _ H).
Qed.

Lemma run_cells_installed cs : forall w w',
  run_cells w cs = Ok w' ->
  installed w' = installed w ∪ list_to_set (installs cs).
Proof.
  induction cs as [|c cs IH]; simpl; intros w w' H.
  - injection H as <-. apply union_nothing.
  - destruct (run_cell w c) as [u|] eqn:E; [|discriminate H].
    rewrite (IH _ _ H), (run_cell_installed _ _ _ E).
    change (installs (c :: cs)) with (installs_of_cell c ++ installs cs)%list.
    rewrite list_to_set_app_L, (assoc_L (∪)). reflexivity.
Qed.

(** What the notebook installs. *)
Lemma notebook_installs : installs indexed_cells = ["keras_sequential_ascii"].
Proof. vm_compute. reflexivity. Qed.

Lemma run_installed env w :
  run env = Ok w -> installed w = env ∪ {["keras_sequential_ascii"]}.
Proof.
  intros H. rewrite (run_cells_installed _ _ _ H), notebook_installs.
  simpl. rewrite (right_id_L ∅ (∪)). reflexivity.
Qed.

End EnvironmentFacts.

(** ** Operations of the notebook *)

Module Operations.

(** C2, as stated, fails: the run has an operation that is neither an
    import, nor the stacking of layers into a model, nor a call of the
    printer, namely the shell escape of cell 2 that installs a package. *)
Lemma shell_escape_is_another_operation :
  run env0 = Ok world0 /\
  ~ Forall (fun ie => listed_operation ie.2 = true) (events world0).
Proof.
  split; [vm_compute; reflexivity|].
  calc (events world0). intros H. apply Forall_inv in H. discriminate H.
Qed.

(** C2, amended: apart from the shell escape of cell 2, which installs the
    printing package, the operations of the notebook are imports from
    keras.models, keras.layers and keras_sequential_ascii, the stacking of
    layer objects into models, and calls of the printer.  Every call is a
    call of an imported object of these packages; the code has no
    arithmetic, comparison or indexing, and defines no function or class. *)
Theorem operations_are_imports_stacking_printing_and_one_install env w :
  run env = Ok w ->
  filter (fun ie => negb (listed_operation ie.2)) (events w) = [pip_cell] /\
  Forall (fun ie => delegated ie.2 = true) (events w) /\
  imported (events w)
    = [ ("keras.models", "Sequential");
        ("keras.layers", "Flatten"); ("keras.layers", "SimpleRNN");
        ("keras.layers", "Dense"); ("keras.layers", "Dropout");
        ("keras.layers", "LSTM"); ("keras.layers", "GRU");
        ("keras.layers", "Bidirectional");
        ("keras_sequential_ascii", "sequential_model_to_ascii_printout") ] /\
  Forall (fun ic => uses_keywords defining_keywords ic.2 = []) code_cells /\
  Forall (fun t => plain_punctuation t = true) code_tokens /\
  Forall (fun ic => is_Some (parse (cell_text ic.2))) code_cells /\
  Forall (fun s => is_keyword_statement s.2 = false) statements /\
  length statements = 16.
Proof.
  intros H. rewrite (run_events _ _ H).
  split; [vm_compute; reflexivity|].
  split; [apply Forall_true; vm_compute; reflexivity|].
  split; [vm_compute; reflexivity|].
  split.
  { apply (Forall_bool
             (fun ic => Nat.eqb (length (uses_keywords defining_keywords ic.2)) 0)).
    - intros ic E. destruct (uses_keywords _ _); [reflexivity | discriminate E].
    - vm_compute; reflexivity. }
  split; [apply Forall_true; vm_compute; reflexivity|].
  split.
  { apply (Forall_bool
             (fun ic => match parse (cell_text ic.2) with
                        | Some _ => true
                        | None => false
                        end)).
    - intros ic E. destruct (parse _); [eexists; reflexivity | discriminate E].
    - vm_compute; reflexivity. }
  split; [|vm_compute; reflexivity].
  apply (Forall_bool (fun s => negb (is_keyword_statement s.2))).
  - intros s E. apply negb_true_iff in E. exact E.
  - vm_compute; reflexivity.
Qed.

Lemma operations_are_imports_stacking_printing_and_one_install_witness :
  run env0 = Ok world0 /\
  filter (fun ie => negb (listed_operation ie.2)) (events world0) = [pip_cell].
Proof.
  split; [vm_compute; reflexivity|].
  apply (operations_are_imports_stacking_printing_and_one_install env0 world0).
  vm_compute; reflexivity.
Defined.

End Operations.

(** ** The check before running, and the outside left open *)

Lemma mem_In x l : mem x l = true <-> In x l.
Proof.
  unfold mem. rewrite existsb_exists. split.
  - intros (y & Hy & E). apply String.eqb_eq in E. subst y. exact Hy.
  - intros H. exists x. split; [exact H | apply String.eqb_refl].
Qed.

Lemma In_without x y l : In y (without x l) -> In y l /\ y <> x.
Proof.
  induction l as [|z l IH]; simpl; [tauto|].
  destruct (String.eqb z x) eqn:E.
  - intros H. destruct (IH H). auto.
  - intros [->|H].
    + split; [auto|]. intros ->. rewrite String.eqb_refl in E. discriminate E.
    + destruct (IH H). auto.
Qed.

(** Induction on expressions that reaches inside argument lists. *)
Lemma expr_ind_nested (P : expr -> Prop) :
  (forall x, P (EName x)) -> (forall n, P (EInt n)) -> (forall s, P (EStr s)) ->
  (forall b, P (EBool b)) -> P ENone ->
  (forall es, Forall P es -> P (ETuple es)) ->
  (forall es, Forall P es -> P (EList es)) ->
  (forall e a, P e -> P (EAttr e a)) ->
  (forall f args kwargs, P f -> Forall P args ->
      Forall (fun kv => P (snd kv)) kwargs -> P (ECall f args kwargs)) ->
  forall e, P e.
Proof.
  intros HN HI HS HB H0 HT HL HA HC.
  fix IH 1. intros [x|n|s|b| |es|es|e a|f args kwargs].
  - apply HN. - apply HI. - apply HS. - apply HB. - apply H0.
  - apply HT. induction es as [|e es IHes]; constructor; [apply IH | exact IHes].
  - apply HL. induction es as [|e es IHes]; constructor; [apply IH | exact IHes].
  - apply HA, IH.
  - apply HC; [apply IH | |].
    + induction args as [|e es IHes]; constructor; [apply IH | exact IHes].
    + induction kwargs as [|[k e] es IHes]; constructor; [apply IH | exact IHes].
Qed.

(** Binding the names of an import, one after the other. *)

Section ImportedNames.

Lemma fold_insert_in m (xs : list string) : forall (n : gmap string value) x,
  In x xs -> fold_left (fun n x => <[x := VExt m x]> n) xs n !! x = Some (VExt m x).
Proof.
  induction xs as [|y xs IH] using rev_ind; intros n x Hin; [destruct Hin|].
  rewrite fold_left_app. simpl.
  destruct (decide (y = x)) as [->|Hne].
  - apply lookup_insert_eq.
  - rewrite lookup_insert_ne by exact Hne. apply IH.
    apply in_app_or in Hin as [H|[H|[]]]; [exact H | contradiction].
Qed.

Lemma fold_insert_notin m (xs : list string) : forall (n : gmap string value) x,
  ~ In x xs -> fold_left (fun n x => <[x := VExt m x]> n) xs n !! x = n !! x.
Proof.
  induction xs as [|y xs IH]; simpl; intros n x Hin; [reflexivity|].
  rewrite IH by tauto. apply lookup_insert_ne. intros ->. tauto.
Qed.

Lemma fold_insert_some m (xs : list string) : forall (n : gmap string value) x,
  is_Some (n !! x) -> is_Some (fold_left (fun n x => <[x := VExt m x]> n) xs n !! x).
Proof.
  induction xs as [|y xs IH]; simpl; intros n x H; [exact H|].
  apply IH. apply lookup_insert_is_Some. destruct (decide (y = x)); auto.
Qed.

Lemma fold_insert_ext m (xs : list string) : forall (n : gmap string value) x,
  (exists m' y, n !! x = Some (VExt m' y)) ->
  exists m' y, fold_left (fun n x => <[x := VExt m x]> n) xs n !! x = Some (VExt m' y).
Proof.
  induction xs as [|z xs IH]; simpl; intros n x H; [exact H|].
  apply IH. destruct (decide (z = x)) as [->|Hne].
  - exists m, x. apply lookup_insert_eq.
  - rewrite lookup_insert_ne by exact Hne. exact H.
Qed.

End ImportedNames.

Section FailingFacts.
#[local] Existing Instance M_ret.
#[local] Existing Instance M_bind.
#[local] Existing Instance F_ret.
#[local] Existing Instance F_bind.
Variable O : outside.
Variable env : gset string.
Variable nsp : gmap string value.

(** *** A value computed with the outside left open is the value of the
    kernel above *)

Lemma agrees_ret {A} (a : A) : agrees (mret a) (mret a).
Proof. intros h b h' H. injection H as <- <-. reflexivity. Qed.

Lemma agrees_bind {A B} (c : F A) (d : M A) (f : A -> F B) (g : A -> M B) :
  agrees c d -> (forall a, agrees (f a) (g a)) -> agrees (c ≫= f) (d ≫= g).
Proof.
  intros Hc Hf h b h' H. unfold mbind, F_bind in H. unfold mbind, M_bind.
  destruct (c h) as [[a h1]|] eqn:E; [|discriminate H].
  rewrite (Hc _ _ _ E). exact (Hf a _ _ _ H).
Qed.

Lemma call_agrees c vs kvs : agrees (call_in O env c vs kvs) (call c vs kvs).
Proof.
  intros h a h' H. unfold call_in in H.
  destruct c as [m y| | | | | | |]; try discriminate H.
  destruct (call_raises O env _ vs kvs) as [[x msg]|]; [discriminate H|].
  destruct (call _ vs kvs h) as [r|]; [|discriminate H].
  injection H as ->. reflexivity.
Qed.

Lemma evals_agree (es : list expr) :
  Forall (fun e => agrees (eval_in O env nsp e) (eval nsp e)) es ->
  agrees ((fix go (es : list expr) : F (list value) :=
             match es with
             | [] => mret []
             | e :: r => v ← eval_in O env nsp e; vs ← go r; mret (v :: vs)
             end) es)
         ((fix go (es : list expr) : M (list value) :=
             match es with
             | [] => mret []
             | e :: r => v ← eval nsp e; vs ← go r; mret (v :: vs)
             end) es).
Proof.
  induction 1 as [|e es He Hes IH]; simpl.
  - apply agrees_ret.
  - apply agrees_bind; [exact He|]. intros v.
    apply agrees_bind; [exact IH|]. intros vs. apply agrees_ret.
Qed.

Lemma kwargs_agree (kes : list (string * expr)) :
  Forall (fun kv => agrees (eval_in O env nsp (snd kv)) (eval nsp (snd kv))) kes ->
  agrees ((fix go (kes : list (string * expr)) : F (list (string * value)) :=
             match kes with
             | [] => mret []
             | (k, e) :: r =>
                 v ← eval_in O env nsp e; kvs ← go r; mret ((k, v) :: kvs)
             end) kes)
         ((fix go (kes : list (string * expr)) : M (list (string * value)) :=
             match kes with
             | [] => mret []
             | (k, e) :: r => v ← eval nsp e; kvs ← go r; mret ((k, v) :: kvs)
             end) kes).
Proof.
  induction 1 as [|[k e] es He Hes IH]; simpl.
  - apply agrees_ret.
  - apply agrees_bind; [exact He|]. intros v.
    apply agrees_bind; [exact IH|]. intros vs. apply agrees_ret.
Qed.

Lemma eval_agrees e : agrees (eval_in O env nsp e) (eval nsp e).
Proof.
  induction e as [x|n|s|b| |es IH|es IH|e a IH|f args kwargs IHf IHa IHk]
    using expr_ind_nested; simpl.
  - destruct (nsp !! x); [apply agrees_ret|]. intros h a h' H. discriminate H.
  - apply agrees_ret.
  - apply agrees_ret.
  - apply agrees_ret.
  - apply agrees_ret.
  - apply agrees_bind; [apply evals_agree, IH|]. intros vs. apply agrees_ret.
  - apply agrees_bind; [apply evals_agree, IH|]. intros vs. apply agrees_ret.
  - intros h b h' H. discriminate H.
  - apply agrees_bind; [exact IHf|]. intros c.
    apply agrees_bind; [apply evals_agree, IHa|]. intros vs.
    apply agrees_bind; [apply kwargs_agree, IHk|]. intros kvs.
    apply call_agrees.
Qed.

(** *** Expressions that pass the check end in a value or in a failure
    from outside *)

Variable G : facts.
Hypothesis Hext : forall x, In x (externals G) -> exists m y, nsp !! x = Some (VExt m y).
Hypothesis Hbnd : forall x, In x (bound G) -> is_Some (nsp !! x).

Lemma sound_ret {A} (a : A) : sound_in O (mret a).
Proof. intros h. left. exists a, h. reflexivity. Qed.

Lemma sound_bind {A B} (c : F A) (f : A -> F B) :
  sound_in O c -> (forall a, sound_in O (f a)) -> sound_in O (c ≫= f).
Proof.
  intros Hc Hf h. unfold mbind, F_bind.
  destruct (Hc h) as [(a & h' & E)|(fl & E & Hfl)]; rewrite E.
  - apply Hf.
  - right. exists fl. auto.
Qed.

Lemma sound_bind_pure {A B} (c : F A) (a : A) (f : A -> F B) :
  (forall h, c h = Done (a, h)) -> sound_in O (f a) -> sound_in O (c ≫= f).
Proof. intros Hc Hf h. unfold mbind, F_bind. rewrite Hc. apply Hf. Qed.

Lemma call_sound m y vs kvs : sound_in O (call_in O env (VExt m y) vs kvs).
Proof.
  intros h. unfold call_in.
  destruct (call_raises O env (VExt m y) vs kvs) as [[x msg]|] eqn:E.
  - right. exists (Raised x msg). split; [reflexivity|].
    exists x, msg. split; [reflexivity|]. left. exists env, m, y, vs, kvs. exact E.
  - left. simpl. eauto.
Qed.

Lemma evals_sound (es : list expr) :
  Forall (fun e => expr_ok G e = true -> sound_in O (eval_in O env nsp e)) es ->
  forallb (expr_ok G) es = true ->
  sound_in O ((fix go (es : list expr) : F (list value) :=
                 match es with
                 | [] => mret []
                 | e :: r => v ← eval_in O env nsp e; vs ← go r; mret (v :: vs)
                 end) es).
Proof.
  induction 1 as [|e es He Hes IH]; simpl; intros Hok.
  - apply sound_ret.
  - apply andb_prop in Hok as [H1 H2].
    apply sound_bind; [auto|]. intros v.
    apply sound_bind; [auto|]. intros vs. apply sound_ret.
Qed.

Lemma kwargs_sound (kes : list (string * expr)) :
  Forall (fun kv => expr_ok G (snd kv) = true
                    -> sound_in O (eval_in O env nsp (snd kv))) kes ->
  forallb (fun kv => expr_ok G (snd kv)) kes = true ->
  sound_in O ((fix go (kes : list (string * expr)) : F (list (string * value)) :=
                 match kes with
                 | [] => mret []
                 | (k, e) :: r =>
                     v ← eval_in O env nsp e; kvs ← go r; mret ((k, v) :: kvs)
                 end) kes).
Proof.
  induction 1 as [|[k e] es He Hes IH]; simpl; intros Hok.
  - apply sound_ret.
  - apply andb_prop in Hok as [H1 H2].
    apply sound_bind; [auto|]. intros v.
    apply sound_bind; [auto|]. intros vs. apply sound_ret.
Qed.

Lemma eval_sound e : expr_ok G e = true -> sound_in O (eval_in O env nsp e).
Proof.
  induction e as [x|n|s|b| |es IH|es IH|e a IH|f args kwargs IHf IHa IHk]
    using expr_ind_nested; simpl; intros Hok.
  - apply mem_In, Hbnd in Hok as [v Hv]. rewrite Hv. apply sound_ret.
  - apply sound_ret.
  - apply sound_ret.
  - apply sound_ret.
  - apply sound_ret.
  - apply sound_bind; [apply evals_sound; assumption|]. intros vs. apply sound_ret.
  - apply sound_bind; [apply evals_sound; assumption|]. intros vs. apply sound_ret.
  - discriminate Hok.
  - destruct f as [g| | | | | | | |]; try discriminate Hok.
    apply andb_prop in Hok as [Hok Hkw]. apply andb_prop in Hok as [Hok Har].
    apply andb_prop in Hok as [Hg Hb].
    apply mem_In, Hext in Hg as (m & y & Hg).
    apply (sound_bind_pure _ (VExt m y)).
    { intros h. simpl. rewrite Hg. reflexivity. }
    apply sound_bind; [apply evals_sound; assumption|]. intros vs.
    apply sound_bind; [apply kwargs_sound; assumption|]. intros kvs.
    apply call_sound.
Qed.

End FailingFacts.

Section FailingRuns.
Variable O : outside.

(** *** Statements and cells that pass the check *)

Lemma stmt_sound_in i w s G G' :
  names_hold G w -> stmt_step G s = Some G' ->
  sound_step O G' (exec_stmt_in O i w s).
Proof.
  intros (He & Hb) Hs.
  destruct s as [cmd|c|m xs|m|x e|e|k r]; unfold stmt_step in Hs;
    unfold exec_stmt_in.
  - destruct (pip_install (shell_words cmd)) as [ps|]; [|discriminate Hs].
    injection Hs as <-. left. eexists. split; [reflexivity|]. split; auto.
  - injection Hs as <-. left. eexists. split; [reflexivity|]. split; auto.
  - destruct (mem (package_of m) (packages G)); [|discriminate Hs].
    injection Hs as <-.
    destruct (import_raises O (installed w) m xs) as [[x msg]|] eqn:E.
    + right. eexists. split; [reflexivity|]. exists x, msg.
      split; [reflexivity|]. right. eauto.
    + left. eexists. split; [reflexivity|]. split; simpl.
      * intros x Hin. apply in_app_or in Hin as [Hin|Hin].
        -- exists m, x. apply fold_insert_in, Hin.
        -- apply fold_insert_ext, He, Hin.
      * intros x Hin. apply in_app_or in Hin as [Hin|Hin].
        -- rewrite (fold_insert_in _ _ _ _ Hin). eexists; reflexivity.
        -- apply fold_insert_some, Hb, Hin.
  - discriminate Hs.
  - destruct (expr_ok G e) eqn:Hok; [|discriminate Hs]. injection Hs as <-.
    destruct (eval_sound O (installed w) (ns w) G He Hb e Hok
                {| next_id := fresh w; calls := [] |})
      as [(v & h' & E)|(f & E & Hf)]; rewrite E.
    + left. eexists. split; [reflexivity|]. split; simpl.
      * intros y Hin. apply In_without in Hin as [Hin Hne].
        rewrite lookup_insert_ne by auto. apply He, Hin.
      * intros y [->|Hin].
        -- rewrite lookup_insert_eq. eexists; reflexivity.
        -- apply lookup_insert_is_Some. destruct (decide (x = y)); auto.
    + right. exists f. auto.
  - destruct (expr_ok G e) eqn:Hok; [|discriminate Hs]. injection Hs as <-.
    destruct (eval_sound O (installed w) (ns w) G He Hb e Hok
                {| next_id := fresh w; calls := [] |})
      as [(v & h' & E)|(f & E & Hf)]; rewrite E.
    + left. eexists. split; [reflexivity|]. split; auto.
    + right. exists f. auto.
  - discriminate Hs.
Qed.

Lemma stmts_sound_in i ss : forall w G G',
  names_hold G w -> stmts_step G ss = Some G' ->
  sound_step O G' (exec_stmts_in O i w ss).
Proof.
  induction ss as [|s ss IH]; simpl; intros w G G' H Hs.
  - injection Hs as <-. left. eauto.
  - destruct (stmt_step G s) as [G1|] eqn:E; [|discriminate Hs].
    destruct (stmt_sound_in i w s G G1 H E) as [(u & -> & Hu)|(f & -> & Hf)].
    + eauto.
    + right. eauto.
Qed.

Lemma cell_sound_in ic w G G' :
  names_hold G w -> cell_step G ic = Some G' ->
  sound_step O G' (run_cell_in O w ic).
Proof.
  unfold cell_step, run_cell_in. intros H Hs. destruct (cell_type ic.2).
  - injection Hs as <-. left. eauto.
  - destruct (parse _); [|discriminate Hs]. eauto using stmts_sound_in.
Qed.

Lemma cells_sound_in cs : forall w G G',
  names_hold G w -> cells_step G cs = Some G' ->
  sound_step O G' (run_cells_in O w cs).
Proof.
  induction cs as [|c cs IH]; simpl; intros w G G' H Hs.
  - injection Hs as <-. left. eauto.
  - destruct (cell_step G c) as [G1|] eqn:E; [|discriminate Hs].
    destruct (cell_sound_in c w G G1 H E) as [(u & -> & Hu)|(f & -> & Hf)].
    + eauto.
    + right. eauto.
Qed.

Lemma names_hold_included G G' w :
  included G G' = true -> names_hold G' w -> names_hold G w.
Proof.
  unfold included. intros Hi (He & Hb).
  apply andb_prop in Hi as [Hi H3]. apply andb_prop in Hi as [H1 H2].
  rewrite forallb_forall in H2, H3.
  split; intros x Hin.
  - apply He, mem_In, H2, Hin.
  - apply Hb, mem_In, H3, Hin.
Qed.

(** *** What a statement leaves alone *)

Lemma exec_stmt_in_frame i w s w' x :
  exec_stmt_in O i w s = Done w' -> ~ In x (targets s) ->
  ns w' !! x = ns w !! x.
Proof.
  destruct s as [cmd|c|m xs|m|y e|e|k r]; unfold exec_stmt_in, targets;
    intros H Hx.
  - injection H as <-. reflexivity.
  - injection H as <-. reflexivity.
  - destruct (import_raises _ _ _ _) as [[? ?]|]; [discriminate H|].
    injection H as <-. simpl. apply fold_insert_notin, Hx.
  - discriminate H.
  - destruct (eval_in _ _ _ _ _) as [[v h]|]; [|discriminate H].
    injection H as <-. simpl. apply lookup_insert_ne. intros ->.
    apply Hx. left. reflexivity.
  - destruct (eval_in _ _ _ _ _) as [[v h]|]; [|discriminate H].
    injection H as <-. reflexivity.
  - discriminate H.
Qed.

Lemma exec_stmts_in_frame i ss x : forall w w',
  exec_stmts_in O i w ss = Done w' -> ~ In x (flat_map targets ss) ->
  ns w' !! x = ns w !! x.
Proof.
  induction ss as [|s ss IH]; simpl; intros w w' H Hx.
  - injection H as <-. reflexivity.
  - destruct (exec_stmt_in O i w s) as [u|] eqn:E; [|discriminate H].
    rewrite (IH _ _ H), (exec_stmt_in_frame _ _ _ _ _ E); auto;
      intros Hin; apply Hx, in_or_app; auto.
Qed.

Lemma run_cell_in_frame ic w w' x :
  run_cell_in O w ic = Done w' -> ~ In x (cell_targets ic) ->
  ns w' !! x = ns w !! x.
Proof.
  unfold run_cell_in, cell_targets. destruct (cell_type ic.2); intros H Hx.
  - injection H as <-. reflexivity.
  - destruct (parse _); [|discriminate H]. eauto using exec_stmts_in_frame.
Qed.

(** *** A run that completes is the run of the kernel above *)

Lemma exec_stmt_in_same i s w v w' v' :
  same_kernel w v ->
  exec_stmt_in O i w s = Done w' -> exec_stmt i v s = Ok v' ->
  same_kernel w' v'.
Proof.
  intros (Hns & Hfr & Htr) H1 H2.
  destruct s as [cmd|c|m xs|m|x e|e|k r];
    unfold exec_stmt_in in H1; unfold exec_stmt in H2.
  - destruct (pip_install (shell_words cmd)); [|discriminate H2].
    injection H1 as <-. injection H2 as <-.
    repeat split; simpl; congruence.
  - injection H1 as <-. injection H2 as <-. repeat split; assumption.
  - destruct (import_raises _ _ _ _) as [[? ?]|]; [discriminate H1|].
    destruct (bool_decide _); [|discriminate H2].
    injection H1 as <-. injection H2 as <-.
    repeat split; simpl; congruence.
  - discriminate H1.
  - destruct (eval_in _ _ _ _ _) as [[a h]|] eqn:E; [|discriminate H1].
    apply eval_agrees in E. rewrite Hns, Hfr in E. rewrite E in H2.
    injection H1 as <-. injection H2 as <-.
    repeat split; simpl; congruence.
  - destruct (eval_in _ _ _ _ _) as [[a h]|] eqn:E; [|discriminate H1].
    apply eval_agrees in E. rewrite Hns, Hfr in E. rewrite E in H2.
    injection H1 as <-. injection H2 as <-.
    repeat split; simpl; congruence.
  - discriminate H1.
Qed.

Lemma exec_stmts_in_same i ss : forall w v w' v',
  same_kernel w v ->
  exec_stmts_in O i w ss = Done w' -> exec_stmts i v ss = Ok v' ->
  same_kernel w' v'.
Proof.
  induction ss as [|s ss IH]; simpl; intros w v w' v' Hk H1 H2.
  - injection H1 as <-. injection H2 as <-. exact Hk.
  - destruct (exec_stmt_in O i w s) as [u1|] eqn:E1; [|discriminate H1].
    destruct (exec_stmt i v s) as [u2|] eqn:E2; [|discriminate H2].
    exact (IH _ _ _ _ (exec_stmt_in_same _ _ _ _ _ _ Hk E1 E2) H1 H2).
Qed.

Lemma run_cell_in_same c w v w' v' :
  same_kernel w v ->
  run_cell_in O w c = Done w' -> run_cell v c = Ok v' ->
  same_kernel w' v'.
Proof.
  unfold run_cell_in, run_cell. intros Hk H1 H2. destruct (cell_type c.2).
  - injection H1 as <-. injection H2 as <-. exact Hk.
  - destruct (parse _); [|discriminate H1].
    exact (exec_stmts_in_same _ _ _ _ _ _ Hk H1 H2).
Qed.

Lemma run_cells_in_same cs : forall w v w' v',
  same_kernel w v ->
  run_cells_in O w cs = Done w' -> run_cells v cs = Ok v' ->
  same_kernel w' v'.
Proof.
  induction cs as [|c cs IH]; simpl; intros w v w' v' Hk H1 H2.
  - injection H1 as <-. injection H2 as <-. exact Hk.
  - destruct (run_cell_in O w c) as [u1|] eqn:E1; [|discriminate H1].
    destruct (run_cell v c) as [u2|] eqn:E2; [|discriminate H2].
    exact (IH _ _ _ _ (run_cell_in_same _ _ _ _ _ Hk E1 E2) H1 H2).
Qed.

End FailingRuns.

Section NotebookOutside.

Lemma start_names_hold env : names_hold framework_only (start env).
Proof. split; intros x []. Qed.

Lemma notebook_passes : is_Some (cells_step framework_only indexed_cells).
Proof. vm_compute. eexists; reflexivity. Qed.

Lemma notebook_failure_is_from_outside O env f :
  run_cells_in O (start env) indexed_cells = Failed f -> from_outside O f.
Proof.
  intros H. destruct notebook_passes as [G HG].
  destruct (cells_sound_in O indexed_cells (start env) framework_only G
              (start_names_hold env) HG) as [(w & E & _)|(f' & E & Hf)];
    rewrite E in H.
  - discriminate H.
  - injection H as <-. exact Hf.
Qed.

End NotebookOutside.

(** ** Errors *)

Module Errors.

(** C5: no code cell defines an exception type, raises an exception or
    catches one: the only reserved words of the code are [from], [import],
    [True] and [False], every cell parses, and no statement is led by a
    reserved word.  Nor does the notebook fail on its own account (every
    name it reads is bound, everything it calls is an imported object).  So
    whatever the packages outside do, a run that ends early ends with an
    exception that an import or a call of an imported object raised, its
    class and message unchanged. *)
Theorem no_error_is_defined_raised_or_caught :
  Forall (fun ic => uses_keywords error_keywords ic.2 = []) code_cells /\
  Forall (fun ic => Forall (fun k => In k ["from"; "import"; "True"; "False"])
                           (keywords_of (lex (cell_text ic.2)))) code_cells /\
  Forall (fun ic => is_Some (parse (cell_text ic.2))) code_cells /\
  Forall (fun s => is_keyword_statement s.2 = false) statements /\
  (forall O env f,
      run_cells_in O (start env) indexed_cells = Failed f -> from_outside O f).
Proof.
  split.
  { apply (Forall_bool
             (fun ic => Nat.eqb (length (uses_keywords error_keywords ic.2)) 0)).
    - intros ic E. destruct (uses_keywords _ _); [reflexivity | discriminate E].
    - vm_compute; reflexivity. }
  split.
  { apply (Forall_bool
             (fun ic => forallb (fun k => existsb (String.eqb k)
                                            ["from"; "import"; "True"; "False"])
                                (keywords_of (lex (cell_text ic.2))))).
    - intros ic E. apply Forall_forall. intros k Hk.
      apply list_elem_of_In in Hk.
      rewrite forallb_forall in E. specialize (E k Hk).
      apply existsb_exists in E as (k' & Hin & E).
      apply String.eqb_eq in E. subst k'. exact Hin.
    - vm_compute; reflexivity. }
  split.
  { apply (Forall_bool
             (fun ic => match parse (cell_text ic.2) with
                        | Some _ => true
                        | None => false
                        end)).
    - intros ic E. destruct (parse _); [eexists; reflexivity | discriminate E].
    - vm_compute; reflexivity. }
  split.
  { apply (Forall_bool (fun s => negb (is_keyword_statement s.2))).
    - intros s E. apply negb_true_iff in E. exact E.
    - vm_compute; reflexivity. }
  intros O env f. apply notebook_failure_is_from_outside.
Qed.

(** Where the framework refuses to build a dense layer, the run ends with
    the exception the framework raised. *)
Lemma no_error_is_defined_raised_or_caught_witness :
  run_cells_in dense_refused (start ∅) indexed_cells
  = Failed (Raised "ValueError" "refused") /\
  from_outside dense_refused (Raised "ValueError" "refused").
Proof.
  assert (H : run_cells_in dense_refused (start ∅) indexed_cells
              = Failed (Raised "ValueError" "refused"))
    by (vm_compute; reflexivity).
  split; [exact H|].
  destruct no_error_is_defined_raised_or_caught as (_ & _ & _ & _ & P).
  exact (P dense_refused ∅ _ H).
Defined.

End Errors.

(** ** What outlives the kernel *)

Module Persistence.

(** C6, as stated, fails: the run leaves the Python environment other than
    it found it, for the shell cell installs a package into it (and all the
    more so if [pip] installs more than the one package it is told to). *)
Lemma shell_cell_changes_environment :
  run env0 = Ok world0 /\ installed world0 <> env0.
Proof.
  split; [vm_compute; reflexivity|].
  intros Heq.
  assert (Hin : "keras_sequential_ascii" ∈ installed world0).
  { rewrite (run_installed _ _ run_env0).
    apply elem_of_union_r, elem_of_singleton. reflexivity. }
  rewrite Heq in Hin. unfold env0 in Hin.
  apply elem_of_singleton in Hin. discriminate Hin.
Qed.

(** C6, amended: the notebook defines no file format, protocol or persisted
    state, and its Python statements hold no operation on files, on the
    network or on state beyond the kernel's variables: they import from
    keras.models, keras.layers and keras_sequential_ascii, call seven of the
    objects imported from there, and bind the variable [model]; what those
    packages do inside is not the notebook's.  The one exception is the
    shell cell [!pip install -q keras_sequential_ascii], the installation of
    a package, which is there to change the Python environment. *)
Theorem only_the_shell_cell_is_an_installation env w :
  run env = Ok w ->
  List.filter (fun s => is_shell_statement s.2) statements
    = [(2, SShell "pip install -q keras_sequential_ascii")] /\
  flat_map (fun s => installs_of_stmt s.2) statements
    = ["keras_sequential_ascii"] /\
  List.filter (fun ie => negb (listed_operation ie.2)) (events w) = [pip_cell] /\
  remove_dups (map fst (imported (events w))) = framework_modules /\
  called_names (events w)
    = ["SimpleRNN"; "Bidirectional"; "LSTM"; "GRU"; "Dense"; "Sequential";
       "sequential_model_to_ascii_printout"] /\
  Forall (fun ie => delegated ie.2 = true) (events w) /\
  remove_dups (map (fun b => b.1.2) (bindings (events w))) = ["model"].
Proof.
  intros H. rewrite (run_events _ _ H).
  split; [vm_compute; reflexivity|].
  split; [vm_compute; reflexivity|].
  split; [vm_compute; reflexivity|].
  split; [vm_compute; reflexivity|].
  split; [vm_compute; reflexivity|].
  split; [apply Forall_true; vm_compute; reflexivity|].
  vm_compute; reflexivity.
Qed.

Lemma only_the_shell_cell_is_an_installation_witness :
  run env0 = Ok world0 /\
  List.filter (fun ie => negb (listed_operation ie.2)) (events world0)
  = [pip_cell].
Proof.
  split; [vm_compute; reflexivity|].
  apply (only_the_shell_cell_is_an_installation env0 world0).
  vm_compute; reflexivity.
Defined.

End Persistence.

(** ** Execution *)

Module Execution.

(** C7, as stated, fails: one cell does start a process, for the shell
    escape of cell 2 runs [pip] as a child process of the kernel (whatever
    else the imported packages may start on their own). *)
Lemma shell_escape_is_a_child_process :
  run env0 = Ok world0 /\ ~ no_child_process (events world0).
Proof.
  split; [vm_compute; reflexivity|].
  unfold no_child_process. calc (events world0).
  intros H. apply Forall_inv in H. discriminate H.
Qed.

(** C7, amended: the code cells were executed one after the other in the
    order of the document (execution counts 1 to 7).  The code of the
    notebook asks for no thread, no process and no cancellation: its Python
    statements import from keras.models, keras.layers and
    keras_sequential_ascii only, call nothing but seven of the objects
    imported from there, and bind nothing but [model], which cells 5, 7, 8,
    9 and 11 bind anew; what those packages or the kernel start on their own
    is not the notebook's.  The one exception is the shell escape of cell 2,
    which runs [pip] as a child process. *)
Theorem cells_run_in_order_and_the_code_asks_for_one_process env w :
  run env = Ok w ->
  map (fun ic => execution_count ic.2) code_cells
    = map Some [1; 2; 3; 4; 5; 6; 7]%Z /\
  List.filter (fun ie => is_shell ie.2) (events w) = [pip_cell] /\
  List.filter (fun s => is_shell_statement s.2) statements
    = [(2, SShell "pip install -q keras_sequential_ascii")] /\
  remove_dups (map fst (imported (events w))) = framework_modules /\
  called_names (events w)
    = ["SimpleRNN"; "Bidirectional"; "LSTM"; "GRU"; "Dense"; "Sequential";
       "sequential_model_to_ascii_printout"] /\
  Forall (fun ie => delegated ie.2 = true) (events w) /\
  map (fun b => (b.1.1, b.1.2)) (bindings (events w))
    = [(5, "model"); (7, "model"); (8, "model"); (9, "model"); (11, "model")].
Proof.
  intros H. rewrite (run_events _ _ H).
  split; [vm_compute; reflexivity|].
  split; [vm_compute; reflexivity|].
  split; [vm_compute; reflexivity|].
  split; [vm_compute; reflexivity|].
  split; [vm_compute; reflexivity|].
  split; [apply Forall_true; vm_compute; reflexivity|].
  vm_compute; reflexivity.
Qed.

Lemma cells_run_in_order_and_the_code_asks_for_one_process_witness :
  run env0 = Ok world0 /\
  List.filter (fun ie => is_shell ie.2) (events world0) = [pip_cell].
Proof.
  split; [vm_compute; reflexivity|].
  apply (cells_run_in_order_and_the_code_asks_for_one_process env0 world0).
  vm_compute; reflexivity.
Defined.

End Execution.

(** * Further properties *)

(** ** Facts about the cells *)

Section NotebookFacts.
#[local] Existing Instance M_ret.
#[local] Existing Instance M_bind.

Lemma run_cell_code w i c ss :
  cell_type c = code -> parse (cell_text c) = Some ss ->
  run_cell w (i, c) = exec_stmts i w ss.
Proof. unfold run_cell. simpl. intros -> ->. reflexivity. Qed.

Lemma eval_unbound (nsp : gmap string value) f args kwargs h :
  nsp !! f = None -> eval nsp (ECall (EName f) args kwargs) h = Err (NameError f).
Proof. intros H. simpl. unfold mbind, M_bind. rewrite H. reflexivity. Qed.

Lemma first_callee_unbound i ss f : forall w,
  first_callee ss = Some f -> ns w !! f = None ->
  exec_stmts i w ss = Err (NameError f).
Proof.
  induction ss as [|s ss IH]; intros w Hf Hn; [discriminate Hf|].
  destruct s as [cmd|c|m xs|m|x e|e|k r]; unfold first_callee in Hf; simpl in Hf;
    try discriminate Hf.
  - simpl. apply IH; assumption.
  - destruct e as [| | | | | | | |[g| | | | | | | |] a kw]; try discriminate Hf.
    injection Hf as ->. cbn [exec_stmts]. unfold exec_stmt.
    rewrite eval_unbound by exact Hn. reflexivity.
  - destruct e as [| | | | | | | |[g| | | | | | | |] a kw]; try discriminate Hf.
    injection Hf as ->. cbn [exec_stmts]. unfold exec_stmt.
    rewrite eval_unbound by exact Hn. reflexivity.
Qed.

Lemma setup_run : run_cells (start env0) setup_cells = Ok setup_world.
Proof. vm_compute. reflexivity. Qed.

Lemma completed_setup_is_the_reference_setup O env w :
  run_cells_in O (start env) setup_cells = Done w -> same_kernel w setup_world.
Proof.
  intros H.
  assert (Y : same_kernel (start env) (start env0))
    by (split; [reflexivity | split; reflexivity]).
  exact (run_cells_in_same O _ _ _ _ _ Y H setup_run).
Qed.

Lemma model_cells_rerunnable :
  Forall (fun c => rerunnable after_setup c = true /\ cell_targets c = ["model"])
         model_cells.
Proof.
  apply (Forall_bool (fun c => rerunnable after_setup c
                               && bool_decide (cell_targets c = ["model"]))).
  - intros c E. apply andb_prop in E as [E1 E2].
    apply bool_decide_eq_true_1 in E2. auto.
  - vm_compute. reflexivity.
Qed.

Lemma rerun_sequence_in O cs : forall w,
  names_hold after_setup w -> Forall (fun c => In c model_cells) cs ->
  (exists w', run_cells_in O w cs = Done w' /\
              forall x, x <> "model" -> ns w' !! x = ns w !! x) \/
  (exists f, run_cells_in O w cs = Failed f /\ from_outside O f).
Proof.
  induction cs as [|c cs IH]; intros w H Hcs.
  - left. exists w. simpl. auto.
  - apply Forall_cons in Hcs as [Hc Hcs].
    pose proof model_cells_rerunnable as Hm.
    rewrite List.Forall_forall in Hm. destruct (Hm c Hc) as (Hr & Ht).
    unfold rerunnable in Hr.
    destruct (cell_step after_setup c) as [G|] eqn:EG; [|discriminate Hr].
    simpl.
    destruct (cell_sound_in O c w after_setup G H EG)
      as [(u & Eu & Hu)|(f & Ef & Hf)]; rewrite ?Eu, ?Ef.
    + apply (names_hold_included _ _ _ Hr) in Hu.
      destruct (IH u Hu Hcs) as [(w' & Hw' & Hns)|(f & Hf1 & Hf2)].
      * left. exists w'. split; [exact Hw'|]. intros x Hx.
        rewrite (Hns x Hx). apply (run_cell_in_frame O c w u x Eu).
        rewrite Ht. intros [E|[]]. auto.
      * right. eauto.
    + right. eauto.
Qed.

Lemma setup_passes : cells_step framework_only setup_cells = Some after_setup.
Proof. vm_compute. reflexivity. Qed.

End NotebookFacts.

(** ** Running the model cells again, and out of order *)

Module Reruns.

(** X3: once the cells up to the imports have run, the cells that build
    the models can be run in any order and any number of times, whatever the
    packages outside do: such a sequence either runs to completion, and
    then each of the nine imported names still holds the object it was
    imported as, or ends with an exception raised outside; it never fails
    for a name that is not bound, for no model cell reads what another
    model cell leaves. *)
Theorem model_cells_run_in_any_order O env w cs :
  run_cells_in O (start env) setup_cells = Done w ->
  Forall (fun c => In c model_cells) cs ->
  (exists w', run_cells_in O w cs = Done w' /\
              length (imported (events w)) = 9 /\
              Forall (fun mx => ns w' !! mx.2 = Some (VExt mx.1 mx.2))
                     (imported (events w))) \/
  (exists f, run_cells_in O w cs = Failed f /\ from_outside O f).
Proof.
  intros Hs Hcs.
  destruct (cells_sound_in O setup_cells (start env) framework_only after_setup
              (start_names_hold env) setup_passes)
    as [(u & Eu & Hu)|(f & Ef & _)]; rewrite Hs in *; [|discriminate Ef].
  injection Eu as <-.
  destruct (rerun_sequence_in O cs w Hu Hcs) as [(w' & Hw' & Hns)|Hf];
    [|right; exact Hf].
  left. exists w'. split; [exact Hw'|].
  destruct (completed_setup_is_the_reference_setup O env w Hs) as (En & _ & Et).
  unfold events. rewrite Et.
  split; [vm_compute; reflexivity|].
  apply (Forall_bool
           (fun mx => negb (String.eqb mx.2 "model")
                      && match ns setup_world !! mx.2 with
                         | Some (VExt m x) =>
                             String.eqb m mx.1 && String.eqb x mx.2
                         | _ => false
                         end)).
  - intros [m x] E. cbn [fst snd] in E |- *. apply andb_prop in E as [E1 E2].
    rewrite Hns, En; [|intros ->; discriminate E1].
    destruct (ns setup_world !! x) as [[m' x'| | | | | | |]|];
      try discriminate E2.
    apply andb_prop in E2 as [Em Ex].
    apply String.eqb_eq in Em, Ex. subst. reflexivity.
  - vm_compute. reflexivity.
Qed.

Lemma model_cells_run_in_any_order_witness :
  run_cells_in quiet (start env0) setup_cells = Done setup_world /\
  exists w', run_cells_in quiet setup_world
               [(11, cell_11); (5, cell_5); (5, cell_5)] = Done w'.
Proof.
  assert (H : run_cells_in quiet (start env0) setup_cells = Done setup_world)
    by (vm_compute; reflexivity).
  split; [exact H|].
  destruct (model_cells_run_in_any_order quiet env0 setup_world
              [(11, cell_11); (5, cell_5); (5, cell_5)] H)
    as [(w' & A & _)|(f & A & _)].
  - constructor; [in_list|]. constructor; [in_list|].
    constructor; [in_list|]. constructor.
  - exists w'. exact A.
  - exfalso. revert A. vm_compute. discriminate.
Defined.

(** X4: a model cell run on a kernel where [Sequential] is not bound (the
    import cell has not run) fails with the name error of [Sequential], at
    once: the callee is looked up before any layer is constructed. *)
Theorem model_cell_before_imports_is_a_name_error w c :
  In c model_cells -> ns w !! "Sequential" = None ->
  run_cell w c = Err (NameError "Sequential").
Proof.
  intros Hc Hn.
  assert (Hm : Forall (fun c => cell_type c.2 = code /\
                         exists ss, parse (cell_text c.2) = Some ss /\
                                    first_callee ss = Some "Sequential")
                      model_cells).
  { apply (Forall_bool
             (fun c => is_code c.2
                       && match parse (cell_text c.2) with
                          | Some ss => bool_decide (first_callee ss = Some "Sequential")
                          | None => false
                          end)).
    - intros [i d] E. apply andb_prop in E as [E1 E2]. simpl in *. split.
      + unfold is_code in E1. destruct (cell_type d); [discriminate E1 | reflexivity].
      + destruct (parse (cell_text d)) as [ss|]; [|discriminate E2].
        exists ss. split; [reflexivity|]. apply bool_decide_eq_true_1 in E2. exact E2.
    - vm_compute. reflexivity. }
  rewrite List.Forall_forall in Hm. destruct (Hm c Hc) as (Hcode & ss & Hp & Hf).
  destruct c as [i d]. simpl in Hcode, Hp.
  rewrite (run_cell_code w i d ss Hcode Hp).
  apply first_callee_unbound; assumption.
Qed.

Lemma model_cell_before_imports_is_a_name_error_witness :
  In (5, cell_5) model_cells /\
  ns (start env0) !! "Sequential" = None /\
  run_cell (start env0) (5, cell_5) = Err (NameError "Sequential").
Proof.
  assert (H1 : In (5, cell_5) model_cells) by in_list.
  assert (H2 : ns (start env0) !! "Sequential" = None) by reflexivity.
  split; [exact H1|]. split; [exact H2|].
  exact (model_cell_before_imports_is_a_name_error (start env0) (5, cell_5) H1 H2).
Defined.

End Reruns.

(** ** The recorded tables, again *)

Module Tables.

(** X5: a cell has a table as its recorded output exactly when its code
    calls the printer. *)
Theorem tables_exactly_where_the_printer_is_called env w i :
  run env = Ok w ->
  is_Some (table_of_cell i) <->
  In i (map (fun c => c.1.1) (printer_calls (events w))).
Proof.
  intros H. rewrite (run_events _ _ H).
  calc (map (fun c => c.1.1) (printer_calls (events world0))).
  split.
  - intros [t Ht].
    do 13 (destruct i as [|i];
           [ first [ vm_compute in Ht; discriminate Ht
                   | simpl; tauto ] | ]).
    vm_compute in Ht. discriminate Ht.
  - intros [<-|[<-|[<-|[<-|[]]]]]; vm_compute; eexists; reflexivity.
Qed.


Lemma tables_exactly_where_the_printer_is_called_witness :
  run env0 = Ok world0 /\ is_Some (table_of_cell 5).
Proof.
  assert (H : run env0 = Ok world0) by (vm_compute; reflexivity).
  split; [exact H|].
  apply (tables_exactly_where_the_printer_is_called env0 world0 5 H).
  vm_compute. tauto.
Defined.

(** X6: the printer is called in cells 5, 7, 9 and 11, and in every
    printed table the data-dimension rows are the declared input shape
    followed by the output shape of each layer the cell constructs: a
    recurrent layer that returns sequences keeps the time axis and replaces
    the features by its units ((10, 26) becomes (10, 32)), one that does not
    leaves its units only ((32)), and a dense layer replaces the features
    by its outputs ((5)). *)
Theorem printed_dimensions_follow_the_shapes env w :
  run env = Ok w ->
  map (fun c => c.1.1) (printer_calls (events w)) = [5; 7; 9; 11] /\
  Forall (fun c => shapes_agree c.1.1 c.1.2) (printer_calls (events w)) /\
  dims_of <$> table_of_cell 5 = Some [[10; 26]; [32]; [5]]%Z /\
  dims_of <$> table_of_cell 7 = Some [[10; 26]; [32]; [5]]%Z /\
  dims_of <$> table_of_cell 9 = Some [[10; 26]; [10; 32]; [32]; [5]]%Z /\
  dims_of <$> table_of_cell 11 = Some [[10; 26]; [10; 32]; [32]; [5]]%Z /\
  fst <$> (layers_of_cell (events w) 5 ≫= report)
    = Some [[10; 26]; [32]; [5]]%Z /\
  fst <$> (layers_of_cell (events w) 7 ≫= report)
    = Some [[10; 26]; [32]; [5]]%Z /\
  fst <$> (layers_of_cell (events w) 9 ≫= report)
    = Some [[10; 26]; [10; 32]; [32]; [5]]%Z /\
  fst <$> (layers_of_cell (events w) 11 ≫= report)
    = Some [[10; 26]; [10; 32]; [32]; [5]]%Z.
Proof.
  intros H. rewrite (run_events _ _ H).
  split; [vm_compute; reflexivity|].
  calc (printer_calls (events world0)).
  unfold shapes_agree. crunch.
Qed.

Lemma printed_dimensions_follow_the_shapes_witness :
  run env0 = Ok world0 /\
  map (fun c => c.1.1) (printer_calls (events world0)) = [5; 7; 9; 11] /\
  Forall (fun c => shapes_agree c.1.1 c.1.2) (printer_calls (events world0)).
Proof.
  assert (H : run env0 = Ok world0) by (vm_compute; reflexivity).
  split; [exact H|].
  destruct (printed_dimensions_follow_the_shapes env0 world0 H) as (A & B & _).
  split; assumption.
Defined.

(** X8: every recorded table is fixed-width: its text is, character for
    character, its rows written out with each field flush right in a column
    of fixed width (20 for the operation, 5 for the glyph after 3 blanks, 12
    for the dimensions, 19 for the rule, 10 for the weights and 9 for the
    share), so that reading a table loses nothing. *)
Theorem recorded_tables_are_fixed_width i t :
  table_of_cell i = Some t ->
  exists c o, cells !! i = Some c /\ outputs c = [o] /\ text o = render t.
Proof.
  intros H.
  do 13 (destruct i as [|i];
         [ first [ vm_compute in H; discriminate H
                 | vm_compute in H; injection H as <-;
                   do 2 eexists; split; [vm_compute; reflexivity|];
                   split; vm_compute; reflexivity ] | ]).
  vm_compute in H. discriminate H.
Qed.


Lemma recorded_tables_are_fixed_width_witness :
  table_of_cell 9 = Some table_9 /\
  exists c o, cells !! 9 = Some c /\ outputs c = [o] /\ text o = render table_9.
Proof.
  assert (H : table_of_cell 9 = Some table_9) by (vm_compute; reflexivity).
  split; [exact H|].
  exact (recorded_tables_are_fixed_width 9 table_9 H).
Defined.

End Tables.

(** ** Imports that are not used *)

Module Imports.

(** X7: of the nine names the notebook imports, Flatten and Dropout are
    never called; each of the other seven is. *)
Theorem flatten_and_dropout_are_never_used env w :
  run env = Ok w ->
  never_called (events w)
  = [("keras.layers", "Flatten"); ("keras.layers", "Dropout")].
Proof. intros H. rewrite (run_events _ _ H). vm_compute. reflexivity. Qed.

Lemma flatten_and_dropout_are_never_used_witness :
  run env0 = Ok world0 /\
  never_called (events world0)
  = [("keras.layers", "Flatten"); ("keras.layers", "Dropout")].
Proof.
  assert (H : run env0 = Ok world0) by (vm_compute; reflexivity).
  split; [exact H|].
  exact (flatten_and_dropout_are_never_used env0 world0 H).
Defined.

End Imports.
